(** * fetchWoocOrders: the order ledger and its reconciliation

    A shallow embedding of [fetchWCOrders.py], [addresses.py] and
    [mapping.py].  The WooCommerce orders are records, the worksheet of
    the ledger is a list of rows, Python exceptions are an error monad,
    and [existing_order_ids] is a finite map.

    Conventions of the embedding:
    - a Python [str] is a [string] holding its UTF-8 encoding;
    - a worksheet is the list of its rows [1 .. max_row]; a row is the
      list of its cell values from column A, kept without trailing [None]
      cells, so that two sheets are equal exactly when they have as many
      rows and every cell holds the same value.  Fills, borders, number
      formats and alignments carry no value and are left out;
    - every row up to [max_row] is taken to hold a cell, as in every
      sheet this program writes;
    - a file is the sheet that was saved; when it is read again, an empty
      string comes back as an empty cell;
    - an exception that leaves [write_to_excel] ends the run before
      [workbook.save], so the file keeps its former content. *)

From Stdlib Require Import ZArith QArith.QArith_base QArith.Qround String Ascii DecimalString.
From stdpp Require Import base option strings list sorting gmap fin_maps.

Local Open Scope Z_scope.

(** ** Python values and exceptions *)

(** The values a cell, or an entry of [meta_data], holds. *)
Inductive value :=
  | VNone
  | VInt (z : Z)
  | VStr (s : string).

#[global] Instance value_eq_dec : EqDecision value.
Proof. solve_decision. Defined.

Definition value_encode (v : value) : unit + (Z + string) :=
  match v with
  | VNone => inl ()
  | VInt z => inr (inl z)
  | VStr s => inr (inr s)
  end.

Definition value_decode (x : unit + (Z + string)) : value :=
  match x with
  | inl _ => VNone
  | inr (inl z) => VInt z
  | inr (inr s) => VStr s
  end.

#[global] Instance value_countable : Countable value.
Proof.
  refine (inj_countable' value_encode value_decode _).
  by intros [].
Defined.

(** The exceptions the modelled code can raise. *)
Inductive exn :=
  | AttributeError
  | ValueError
  | IndexError.

#[global] Instance exn_eq_dec : EqDecision exn.
Proof. solve_decision. Defined.

Inductive result (A : Type) :=
  | Ok (a : A)
  | Raise (e : exn).
Arguments Ok {A} a.
Arguments Raise {A} e.

#[global] Instance result_eq_dec {A} `{EqDecision A} : EqDecision (result A).
Proof. solve_decision. Defined.

#[global] Instance result_ret : MRet result := λ A a, Ok a.
#[global] Instance result_bind : MBind result := λ A B f m,
  match m with
  | Ok a => f a
  | Raise e => Raise e
  end.

Definition is_Ok {A} (m : result A) : Prop := ∃ a, m = Ok a.
Definition raises {A} (m : result A) : Prop := ∃ e, m = Raise e.

(** ** The Python runtime the code relies on *)

Module Py.

Definition is_digit (a : ascii) : bool :=
  let n := nat_of_ascii a in (48 <=? n)%nat && (n <=? 57)%nat.

(** [str.isspace] of a code point of one byte: tab, line feed, vertical
    tab, form feed, carriage return, the separators 28 to 31, and space. *)
Definition is_space (a : ascii) : bool :=
  let n := nat_of_ascii a in
  ((9 <=? n)%nat && (n <=? 13)%nat) || ((28 <=? n)%nat && (n <=? 32)%nat).

(** The white space of two bytes: U+0085 (C2 85) and U+00A0 (C2 A0). *)
Definition is_space2 (a b : ascii) : bool :=
  let m := nat_of_ascii b in
  (nat_of_ascii a =? 194)%nat && ((m =? 133)%nat || (m =? 160)%nat).

(** The white space of three bytes: U+1680 (E1 9A 80), U+2000 to U+200A
    (E2 80 80 to E2 80 8A), U+2028, U+2029, U+202F (E2 80 A8, A9, AF),
    U+205F (E2 81 9F) and U+3000 (E3 80 80). *)
Definition is_space3 (a b c : ascii) : bool :=
  let l := nat_of_ascii a in
  let m := nat_of_ascii b in
  let n := nat_of_ascii c in
  ((l =? 225)%nat && (m =? 154)%nat && (n =? 128)%nat)
  || ((l =? 226)%nat && (m =? 128)%nat
      && (((128 <=? n)%nat && (n <=? 138)%nat)
          || (n =? 168)%nat || (n =? 169)%nat || (n =? 175)%nat))
  || ((l =? 226)%nat && (m =? 129)%nat && (n =? 159)%nat)
  || ((l =? 227)%nat && (m =? 128)%nat && (n =? 128)%nat).

(** A byte that continues a UTF-8 sequence. *)
Definition is_continuation (a : ascii) : bool :=
  let n := nat_of_ascii a in (128 <=? n)%nat && (n <=? 191)%nat.

(** [len(s)]: the number of code points. *)
Fixpoint len (s : string) : nat :=
  match s with
  | EmptyString => 0
  | String a s' => if is_continuation a then len s' else S (len s')
  end.

(** [s.lstrip()]: the white space in front is removed, code point by code
    point. *)
Fixpoint lstrip (s : string) : string :=
  match s with
  | EmptyString => EmptyString
  | String a s1 =>
      if is_space a then lstrip s1
      else
        match s1 with
        | String b s2 =>
            if is_space2 a b then lstrip s2
            else
              match s2 with
              | String c s3 => if is_space3 a b c then lstrip s3 else s
              | EmptyString => s
              end
        | EmptyString => s
        end
  end.

(** [s.rstrip()]: the string is cut where nothing but white space
    follows. *)
Fixpoint rstrip (s : string) : string :=
  match s with
  | EmptyString => EmptyString
  | String a s' =>
      match lstrip s with
      | EmptyString => EmptyString
      | _ => String a (rstrip s')
      end
  end.

(** [s.strip()] *)
Definition strip (s : string) : string := rstrip (lstrip s).

(** [s.startswith(p)] *)
Fixpoint startswith (s p : string) : bool :=
  match p, s with
  | EmptyString, _ => true
  | String b p', String a s' => if decide (a = b) then startswith s' p' else false
  | String _ _, EmptyString => false
  end.

(** [s.endswith(p)] *)
Fixpoint endswith (s p : string) : bool :=
  if decide (s = p) then true
  else match s with
       | EmptyString => false
       | String _ s' => endswith s' p
       end.

(** [s[:-2]] *)
Fixpoint drop_last2 (s : string) : string :=
  match s with
  | String a (String _ (String _ _) as s') => String a (drop_last2 s')
  | _ => EmptyString
  end.

(** [s.isdigit()], for ASCII digits. *)
Fixpoint all_digits (s : string) : bool :=
  match s with
  | EmptyString => true
  | String a s' => is_digit a && all_digits s'
  end.

Definition isdigit (s : string) : bool :=
  match s with
  | EmptyString => false
  | _ => all_digits s
  end.

(** [s.replace('.', '', 1)] *)
Fixpoint remove_first_dot (s : string) : string :=
  match s with
  | EmptyString => EmptyString
  | String a s' => if decide (a = "."%char) then s' else String a (remove_first_dot s')
  end.

(** [s.split(sep)] for a separator of one character. *)
Fixpoint split (sep : ascii) (s : string) : list string :=
  match s with
  | EmptyString => [EmptyString]
  | String a s' =>
      if decide (a = sep) then EmptyString :: split sep s'
      else match split sep s' with
           | [] => [String a EmptyString]
           | t :: ts => String a t :: ts
           end
  end.

(** The number written by a string of decimal digits. *)
Fixpoint digits_value (acc : Z) (s : string) : Z :=
  match s with
  | EmptyString => acc
  | String a s' => digits_value (10 * acc + (Z.of_nat (nat_of_ascii a) - 48)) s'
  end.

(** [int(s)] for a string: optional surrounding white space, an optional
    sign and decimal digits; anything else raises [ValueError].  (The
    digit-group underscores and non-ASCII digits that Python also reads
    are refused here.) *)
Definition int (s : string) : result Z :=
  match strip s with
  | String "-" t => if isdigit t then Ok (- digits_value 0 t) else Raise ValueError
  | String "+" t => if isdigit t then Ok (digits_value 0 t) else Raise ValueError
  | t => if isdigit t then Ok (digits_value 0 t) else Raise ValueError
  end.

(** [float(s)] for a string that passed [s.replace('.', '', 1).isdigit()],
    as the exact rational it writes. *)
Fixpoint fraction_digits (s : string) : nat :=
  match s with
  | EmptyString => 0
  | String a s' => if decide (a = "."%char) then String.length s' else fraction_digits s'
  end.

Definition float (s : string) : Q :=
  Qmake (digits_value 0 (remove_first_dot s)) (Z.to_pos (10 ^ Z.of_nat (fraction_digits s))).

(** [str(n)] and [f"{n}"] of an integer. *)
Definition str (n : Z) : string := NilZero.string_of_int (Z.to_int n).

(** [f"{n:02d}"] *)
Definition str02 (n : Z) : string :=
  if decide (0 <= n < 10) then "0" +:+ str n else str n.

(** [round(n / d)] to the nearest integer, halves to the even one. *)
Definition round_div (n d : Z) : Z :=
  let q := n / d in
  let r := n mod d in
  if decide (2 * r < d) then q
  else if decide (d < 2 * r) then q + 1
  else if Z.even q then q else q + 1.

(** [s.translate(str.maketrans(...))] for the Persian digits U+06F0 to
    U+06F9, encoded as the bytes DB B0 to DB B9. *)
Fixpoint translate_persian (s : string) : string :=
  match s with
  | String a (String b r as s') =>
      let n := nat_of_ascii b in
      if (nat_of_ascii a =? 219)%nat && (176 <=? n)%nat && (n <=? 185)%nat
      then String (ascii_of_nat (n - 128)) (translate_persian r)
      else String a (translate_persian s')
  | _ => s
  end.

(** The same for the Arabic digits U+0660 to U+0669, the bytes D9 A0 to
    D9 A9. *)
Fixpoint translate_arabic (s : string) : string :=
  match s with
  | String a (String b r as s') =>
      let n := nat_of_ascii b in
      if (nat_of_ascii a =? 217)%nat && (160 <=? n)%nat && (n <=? 169)%nat
      then String (ascii_of_nat (n - 112)) (translate_arabic r)
      else String a (translate_arabic s')
  | _ => s
  end.

(** [d.get(k)] and [k in d] for a dictionary literal, kept as the list of
    its items. *)
Fixpoint get {A} (d : list (string * A)) (k : string) : option A :=
  match d with
  | [] => None
  | (k', v) :: d' => if decide (k' = k) then Some v else get d' k
  end.

(** [list(d.keys()).index(k)] *)
Fixpoint index (keys : list string) (k : string) : nat :=
  match keys with
  | [] => 0
  | k' :: keys' => if decide (k' = k) then 0 else S (index keys' k)
  end.

End Py.

(** ** Dates: [datetime.fromisoformat] and [jdatetime.date.fromgregorian] *)

Module Calendar.

Local Open Scope Z_scope.

Definition g_days_in_month : list Z := [31; 28; 31; 30; 31; 30; 31; 31; 30; 31; 30; 31].
Definition j_days_in_month : list Z := [31; 31; 31; 31; 31; 31; 30; 30; 30; 30; 30; 29].

Definition sum_Z (l : list Z) : Z := foldr Z.add 0 l.

Definition is_leap (y : Z) : bool :=
  ((y mod 4 =? 0) && negb (y mod 100 =? 0)) || (y mod 400 =? 0).

Definition days_in_gregorian_month (y m : Z) : Z :=
  if (m =? 2) && is_leap y then 29
  else default 0 (g_days_in_month !! Z.to_nat (m - 1)).

(** The loop that walks the first eleven Jalali months. *)
Fixpoint month_and_day (months : list Z) (m d : Z) : Z * Z :=
  match months with
  | [] => (m, d)
  | dm :: rest => if d <? dm then (m, d) else month_and_day rest (m + 1) (d - dm)
  end.

(** The conversion of the jdatetime library ([GregorianToJalali]). *)
Definition gregorian_to_jalali (gyear gmonth gday : Z) : Z * Z * Z :=
  let gy := gyear - 1600 in
  let gm := gmonth - 1 in
  let gd := gday - 1 in
  let g_day_no :=
    365 * gy + (gy + 3) / 4 - (gy + 99) / 100 + (gy + 399) / 400
    + sum_Z (take (Z.to_nat gm) g_days_in_month)
    + (if (1 <? gm) && is_leap gy then 1 else 0)
    + gd in
  let j_day_no := g_day_no - 79 in
  let j_np := j_day_no / 12053 in
  let j_day_no := j_day_no mod 12053 in
  let jy := 979 + 33 * j_np + 4 * (j_day_no / 1461) in
  let j_day_no := j_day_no mod 1461 in
  let '(jy, j_day_no) :=
    if 366 <=? j_day_no
    then (jy + (j_day_no - 1) / 365, (j_day_no - 1) mod 365)
    else (jy, j_day_no) in
  let '(jm, jd0) := month_and_day (take 11 j_days_in_month) 1 j_day_no in
  (jy, jm, jd0 + 1).

(** [jdatetime.date.fromgregorian(year, month, day)]: the converted date,
    refused outside the years 1 to 9377 of the library. *)
Definition fromgregorian (gyear gmonth gday : Z) : result (Z * Z * Z) :=
  let '(jy, jm, jd) := gregorian_to_jalali gyear gmonth gday in
  if (1 <=? jy) && (jy <=? 9377) then Ok (jy, jm, jd) else Raise ValueError.

(** [datetime.fromisoformat(date_part)] on the form [YYYY-MM-DD]. *)
Definition fromisoformat (date_part : string) : result (Z * Z * Z) :=
  match date_part with
  | String y1 (String y2 (String y3 (String y4 (String "-"
      (String m1 (String m2 (String "-" (String d1 (String d2 EmptyString))))))))) =>
      let ys := String y1 (String y2 (String y3 (String y4 EmptyString))) in
      let ms := String m1 (String m2 EmptyString) in
      let ds := String d1 (String d2 EmptyString) in
      if Py.all_digits ys && Py.all_digits ms && Py.all_digits ds then
        let y := Py.digits_value 0 ys in
        let m := Py.digits_value 0 ms in
        let d := Py.digits_value 0 ds in
        if (1 <=? y) && (1 <=? m) && (m <=? 12) && (1 <=? d)
           && (d <=? days_in_gregorian_month y m)
        then Ok (y, m, d) else Raise ValueError
      else Raise ValueError
  | _ => Raise ValueError
  end.

End Calendar.

(** ** mapping.py *)

Inductive language := En | Fa.

Definition ENGLISH_TEXT : list (string * string) :=
  [ ("sum_month_orders_row_text", "Monthly Orders");
    ("sum_all_orders_row_text", "All Orders") ].

Definition PERSIAN_TEXT : list (string * string) :=
  [ ("sum_month_orders_row_text", "سفارشات ماه");
    ("sum_all_orders_row_text", "کل سفارشات") ].

Definition STATES : list (string * string) :=
  [ ("EAZ", "آذربایجان شرقی");
    ("WAZ", "آذربایجان غربی");
    ("ADL", "اردبیل");
    ("ESF", "اصفهان");
    ("ABZ", "البرز");
    ("ILM", "ایلام");
    ("BHR", "بوشهر");
    ("THR", "تهران");
    ("CHB", "چهارمحال و بختیاری");
    ("SKH", "خراسان جنوبی");
    ("RKH", "خراسان رضوی");
    ("NKH", "خراسان شمالی");
    ("KHZ", "خوزستان");
    ("ZJN", "زنجان");
    ("SMN", "سمنان");
    ("SBN", "سیستان و بلوچستان");
    ("FRS", "فارس");
    ("GZN", "قزوین");
    ("QHM", "قم");
    ("KRD", "کردستان");
    ("KRN", "کرمان");
    ("KRH", "کرمانشاه");
    ("KBD", "کهگیلویه و بویراحمد");
    ("GLS", "گلستان");
    ("GIL", "گیلان");
    ("LRS", "لرستان");
    ("MZN", "مازندران");
    ("MKZ", "مرکزی");
    ("HRZ", "هرمزگان");
    ("HDN", "همدان");
    ("YZD", "یزد") ].

Definition ENGLISH_COLUMN_HEADERS : list (string * string) :=
  [ ("order_id", "Order ID");
    ("status", "Status");
    ("date_paid", "Date Paid");
    ("customer_id", "Customer ID");
    ("billing_name", "Billing Name");
    ("phone", "Phone");
    ("email", "Email");
    ("birthday", "Birthday");
    ("state_city", "State/City");
    ("address", "Address");
    ("postcode", "Postcode");
    ("total", "Total");
    ("shipping", "Shipping");
    ("discount", "Discount");
    ("sepidar_discount", "Sepidar Discount");
    ("product_sku", "Product SKU");
    ("item_name", "Item Name");
    ("quantity", "Quantity");
    ("item_total", "Item Total");
    ("sepidar_id", "Sepidar ID");
    ("datei", "Shipping Date");
    ("tracking_code", "Tracking Code");
    ("com_postal_payment", "Company Postal Payment");
    ("com_postage", "Company Postage");
    ("delivery_date", "Delivery Date") ].

Definition PERSIAN_COLUMN_HEADERS : list (string * string) :=
  [ ("order_id", "سفارش");
    ("status", "وضعيت");
    ("date_paid", "تاريخ پرداخت");
    ("customer_id", "کد مشتری");
    ("billing_name", "نام و نام خانوادگی");
    ("phone", "تلفن");
    ("email", "ايميل");
    ("birthday", "تولد");
    ("state_city", "استان، شهر");
    ("address", "آدرس");
    ("postcode", "کد پستی");
    ("total", "کل پرداخت");
    ("shipping", "پست");
    ("discount", "تخفيف");
    ("sepidar_discount", "تخفيف در سپيدار");
    ("product_sku", "SKU");
    ("item_name", "نام محصول");
    ("quantity", "تعداد");
    ("item_total", "مبلغ");
    ("sepidar_id", "کد سپيدار");
    ("datei", "تاریخ ارسال");
    ("tracking_code", "کد رهگیری");
    ("com_postal_payment", "پرداختی شرکت بابت پست");
    ("com_postage", "هزینه پست شرکت");
    ("delivery_date", "تاریخ تحویل") ].

Definition ENGLISH_STATUS : list (string * string) :=
  [ ("pending", "Pending");
    ("processing", "Processing");
    ("on-hold", "On-Hold");
    ("box", "Boxing");
    ("completed", "Completed");
    ("cancelled", "Cancelled");
    ("refunded", "Refunded");
    ("failed", "Failed");
    ("deliver", "Deliver") ].

Definition PERSIAN_STATUS : list (string * string) :=
  [ ("pending", "در حال انتظار");
    ("processing", "در حال پردازش");
    ("on-hold", "در انتظار");
    ("box", "در حال بسته‌بندی");
    ("completed", "تکمیل شده");
    ("cancelled", "لغو شده");
    ("refunded", "بازپرداخت شده");
    ("failed", "ناموفق");
    ("deliver", "ارسال شده") ].

(** ** The upstream order *)

Record line_item := {
  item_sku : string;
  item_name : string;
  item_quantity : Z;
  item_total : string
}.

Record order := {
  order_id : Z;
  order_status : string;
  date_paid : option string;
  customer_id : Z;
  billing_first_name : string;
  billing_last_name : string;
  billing_phone : string;
  billing_email : string;
  shipping_state : string;
  shipping_city : string;
  shipping_address_1 : string;
  shipping_postcode : string;
  order_total : string;
  discount_total : string;
  shipping_lines : list string;
  meta_data : list (string * value);
  line_items : list line_item
}.

(** ** The worksheet (openpyxl) *)

Module Sheet.

Local Open Scope nat_scope.

(** A row without its trailing [None] cells. *)
Fixpoint normal_form (l : list value) : list value :=
  match l with
  | [] => []
  | v :: l' =>
      match normal_form l', v with
      | [], VNone => []
      | l'', _ => v :: l''
      end
  end.

(** The value of column [c] of a row; rows and columns count from 1. *)
Definition cell_of_row (rw : list value) (c : nat) : value :=
  match c with
  | 0 => VNone
  | S k => default VNone (rw !! k)
  end.

(** [sheet.cell(row=r, column=c).value] *)
Definition cell_value (s : list (list value)) (r c : nat) : value :=
  match r with
  | 0 => VNone
  | S k => cell_of_row (default [] (s !! k)) c
  end.

Definition write_row (rw : list value) (c : nat) (v : value) : list value :=
  match c with
  | 0 => rw
  | S k => normal_form (<[k := v]> (rw ++ replicate (c - length rw) VNone))
  end.

(** [sheet.cell(row=r, column=c, value=v)]; the rows up to [r] come to
    exist.  (openpyxl refuses row 0 and column 0, which the program never
    asks for.) *)
Definition set_cell (s : list (list value)) (r c : nat) (v : value) : list (list value) :=
  match r with
  | 0 => s
  | S k => alter (λ rw, write_row rw c v) k (s ++ replicate (r - length s) [])
  end.

(** [sheet.max_row]: 1 for a sheet without cells. *)
Definition max_row (s : list (list value)) : nat := Nat.max 1 (length s).

(** [sheet.append(l)]: the row after the last one. *)
Definition append (s : list (list value)) (l : list value) : list (list value) :=
  s ++ [normal_form l].

(** [sheet.delete_rows(idx)] *)
Definition delete_rows (s : list (list value)) (idx : nat) : list (list value) :=
  take (pred idx) s ++ drop idx s.

(** [sheet.insert_rows(idx)]: the rows from [idx] on move down by one;
    formulas are not rewritten. *)
Definition insert_rows (s : list (list value)) (idx : nat) : list (list value) :=
  if decide (idx ≤ length s) then take (pred idx) s ++ [] :: drop (pred idx) s else s.

Definition letter (k : nat) : string := String (ascii_of_nat (65 + k)) EmptyString.

(** [openpyxl.utils.get_column_letter], for columns 1 to 18278. *)
Definition get_column_letter (n : nat) : string :=
  if decide (n ≤ 26) then letter (n - 1)
  else if decide (n ≤ 702) then
    letter ((n - 27) / 26) +:+ letter ((n - 27) mod 26)
  else
    letter ((n - 703) / 676) +:+ letter ((n - 703) / 26 mod 26) +:+ letter ((n - 703) mod 26).

(** What a cell holds once the file is read again: an empty string is
    written as a cell without value and comes back as [None]. *)
Definition reloaded (v : value) : value :=
  match v with
  | VStr EmptyString => VNone
  | _ => v
  end.

(** [load_workbook(excel_file).active], or the sheet of a new [Workbook()]
    when the file does not exist. *)
Definition load_workbook (file : option (list (list value))) : list (list value) :=
  match file with
  | Some s => (λ rw, normal_form (reloaded <$> rw)) <$> s
  | None => []
  end.

End Sheet.

(** ** fetchWCOrders.py *)

Definition COLUMN_HEADERS (lang : language) : list (string * string) :=
  match lang with
  | En => ENGLISH_COLUMN_HEADERS
  | Fa => PERSIAN_COLUMN_HEADERS
  end.

Definition STATUS (lang : language) : list (string * string) :=
  match lang with
  | En => ENGLISH_STATUS
  | Fa => PERSIAN_STATUS
  end.

Definition TEXT (lang : language) : list (string * string) :=
  match lang with
  | En => ENGLISH_TEXT
  | Fa => PERSIAN_TEXT
  end.

(** [isinstance(v, int)] *)
Definition isinstance_int (v : value) : bool :=
  match v with
  | VInt _ => true
  | _ => false
  end.

(** [get_key_by_value(d, value)]: the first key whose label is the value. *)
Fixpoint get_key_by_value (d : list (string * string)) (v : value) : option string :=
  match d with
  | [] => None
  | (key, val) :: d' => if decide (VStr val = v) then Some key else get_key_by_value d' v
  end.

Fixpoint find_meta (items : list (string * value)) (target_key : string) : value :=
  match items with
  | [] => VNone
  | (key, v) :: items' => if decide (key = target_key) then v else find_meta items' target_key
  end.

(** [find_meta_value(data, target_key)] *)
Definition find_meta_value (data : order) (target_key : string) : value :=
  find_meta (meta_data data) target_key.

(** [convert_to_jalali(date_string)]; a [None] timestamp has no [split]. *)
Definition convert_to_jalali (date_string : option string) : result (Z * Z * Z * string) :=
  match date_string with
  | None => Raise AttributeError
  | Some s =>
      match Py.split "T" s with
      | [date_part; time_part] =>
          '(y, m, d) ← Calendar.fromisoformat date_part;
          jalali_date ← Calendar.fromgregorian y m d;
          Ok (jalali_date, time_part)
      | _ => Raise ValueError
      end
  end.

(** [f"{jalali_date.year}-{jalali_date.month:02d}"] *)
Definition jalali_month (jalali_date : Z * Z * Z) : string :=
  let '(y, m, _) := jalali_date in Py.str y +:+ "-" +:+ Py.str02 m.

(** [f"{jalali_date.year}/{jalali_date.month:02d}/{jalali_date.day:02d}"] *)
Definition jalali_day (jalali_date : Z * Z * Z) : string :=
  let '(y, m, d) := jalali_date in Py.str y +:+ "/" +:+ Py.str02 m +:+ "/" +:+ Py.str02 d.

(** The sum over [shipping_lines] of [create_order_row], then [int(...)]. *)
Definition shipping_total (lines : list string) : Z :=
  Qfloor (foldl (λ acc t, if Py.isdigit (Py.remove_first_dot t) then Qplus acc (Py.float t) else acc)
            (Qmake 0 1) lines).

Section Reconcile.

Variable lang : language.

(** [list(COLUMN_HEADERS.keys()).index(name) + 1] *)
Definition column (name : string) : nat := S (Py.index (COLUMN_HEADERS lang).*1 name).

Definition header (name : string) : string := default "" (Py.get (COLUMN_HEADERS lang) name).

Definition text (name : string) : string := default "" (Py.get (TEXT lang) name).

(** [STATUS.get(status)] as a cell value. *)
Definition status_label (status : string) : value :=
  match Py.get (STATUS lang) status with
  | Some label => VStr label
  | None => VNone
  end.

Definition create_order_row (o : order) : result (list value) :=
  let shipping := shipping_total (shipping_lines o) in
  date_part ←
    match date_paid o with
    | None | Some "" => Ok ""
    | Some s => '(jalali_date, _) ← convert_to_jalali (Some s); Ok (jalali_day jalali_date)
    end;
  let address_1 := Py.translate_arabic (Py.translate_persian (shipping_address_1 o)) in
  birthday ←
    match find_meta_value o "_billing_field_529" with
    | VStr s => Ok (Py.translate_arabic (Py.translate_persian s))
    | _ => Raise AttributeError
    end;
  total ← Py.int (order_total o);
  discount ← Py.int (discount_total o);
  Ok [ VInt (order_id o);
       status_label (order_status o);
       VStr date_part;
       VInt (customer_id o);
       VStr (billing_first_name o +:+ " " +:+ billing_last_name o);
       VStr (billing_phone o);
       VStr (billing_email o);
       VStr birthday;
       VStr (default (shipping_state o) (Py.get STATES (shipping_state o))
             +:+ "، " +:+ shipping_city o);
       VStr address_1;
       VStr (shipping_postcode o);
       VInt (total * 10);
       VInt (shipping * 10);
       VInt (discount * 10);
       VInt (Py.round_div (discount * 10 * 10) 11);
       VStr ""; VStr ""; VStr ""; VStr ""; VStr "";
       find_meta_value o "datei";
       find_meta_value o "marsule"; VStr ""; VStr "";
       find_meta_value o "datedeliver" ].

Definition product_row (item : line_item) : result (list value) :=
  total ← Py.int (item_total item);
  Ok (replicate 15 (VStr "")
      ++ [VStr (item_sku item); VStr (item_name item); VInt (item_quantity item); VInt (total * 10)]).

Fixpoint write_products (s : list (list value)) (items : list line_item)
  : result (list (list value)) :=
  match items with
  | [] => Ok s
  | item :: items' =>
      rw ← product_row item;
      write_products (Sheet.append s rw) items'
  end.

(** The rows [start_row .. stop_row] whose cell under the named header is
    an integer. *)
Definition count_integer_rows (s : list (list value)) (column_name : string)
    (start_row stop_row : nat) : result nat :=
  let headers := default [] (s !! 0%nat) in
  if decide (VStr column_name ∈ headers) then
    let column_index := S (default 0%nat (fst <$> list_find (λ v, v = VStr column_name) headers)) in
    Ok (length (filter (λ r, isinstance_int (Sheet.cell_value s r column_index))
                  (seq start_row (S stop_row - start_row))))
  else Raise ValueError.

Definition col_list : list string :=
  [ "address"; "postcode"; "total"; "shipping"; "discount"; "sepidar_discount";
    "item_total"; "com_postal_payment"; "com_postage" ].

Definition sum_formula (column_index from_row last_row : nat) : string :=
  "=SUM(" +:+ Sheet.get_column_letter column_index +:+ Py.str (Z.of_nat from_row)
  +:+ ":" +:+ Sheet.get_column_letter column_index +:+ Py.str (Z.of_nat last_row) +:+ ")".

Definition add_sum_row (s : list (list value)) (from_row last_row : nat) (cols : list string)
  : result (list (list value) * nat) :=
  let sum_row_index := S last_row in
  let s := Sheet.insert_rows s sum_row_index in
  let s := Sheet.set_cell s sum_row_index (column "address")
             (VStr (text "sum_month_orders_row_text")) in
  lastmonth_orders_count ← count_integer_rows s (header "order_id") from_row last_row;
  let s := Sheet.set_cell s sum_row_index (column "postcode")
             (VInt (Z.of_nat lastmonth_orders_count)) in
  let s := foldl (λ s column_name,
               if decide (column_name = "address" ∨ column_name = "postcode") then s
               else Sheet.set_cell s sum_row_index (column column_name)
                      (VStr (sum_formula (column column_name) from_row last_row)))
             s cols in
  Ok (s, sum_row_index).

Definition find_sum_rows (s : list (list value)) : list nat :=
  filter (λ r, Sheet.cell_value s r (column "address") = VStr (text "sum_month_orders_row_text"))
    (seq 2 (Sheet.max_row s - 1)).

Definition calculate_totals (sum_rows : list nat) (cols : list string)
  : list (string * string) :=
  (λ key, (key, "=" +:+ String.concat " + "
                 ((λ i, Sheet.get_column_letter (column key) +:+ Py.str (Z.of_nat i))
                    <$> sum_rows))) <$> cols.

Definition col_total_at (col_total : list (string * string)) (key : string) : value :=
  VStr (default "" (Py.get col_total key)).

Definition append_totals (s : list (list value)) (col_total : list (string * string))
  : list (list value) :=
  Sheet.append s
    (replicate 9 (VStr "")
     ++ [ VStr (text "sum_all_orders_row_text"); col_total_at col_total "postcode";
          col_total_at col_total "total"; col_total_at col_total "shipping";
          col_total_at col_total "discount"; col_total_at col_total "sepidar_discount";
          VStr ""; VStr ""; VStr ""; col_total_at col_total "item_total";
          VStr ""; VStr ""; VStr "";
          col_total_at col_total "com_postal_payment"; col_total_at col_total "com_postage" ]).

(** The identifier index built before the batch: each value of the
    identifier column, from row 2 on, with the last row that holds it;
    the key [None] is dropped. *)
Definition existing_order_ids (s : list (list value)) : gmap value nat :=
  filter (λ kv, kv.1 ≠ VNone)
    (foldl (λ m r, <[Sheet.cell_value s r (column "order_id") := r]> m) ∅
       (seq 2 (Sheet.max_row s - 1))).

(** The update of the row of an order the ledger already holds. *)
Definition update_existing_order (s : list (list value)) (row_index : nat) (o : order)
  : list (list value) :=
  let current_status := order_status o in
  let lang_existing_status := Sheet.cell_value s row_index (column "status") in
  let existing_status := get_key_by_value (STATUS lang) lang_existing_status in
  let s :=
    if decide (existing_status ≠ Some current_status)
    then Sheet.set_cell s row_index (column "status") (status_label current_status)
    else s in
  let existing_datei := Sheet.cell_value s row_index (column "datei") in
  let current_datei := find_meta_value o "datei" in
  let s :=
    if decide (current_datei ≠ existing_datei)
    then Sheet.set_cell s row_index (column "datei") current_datei
    else s in
  let existing_tracking_code := Sheet.cell_value s row_index (column "tracking_code") in
  let current_tracking_code := find_meta_value o "marsule" in
  let s :=
    if decide (current_tracking_code ≠ existing_tracking_code)
    then Sheet.set_cell s row_index (column "tracking_code") current_tracking_code
    else s in
  let existing_delivery_date := Sheet.cell_value s row_index (column "delivery_date") in
  let current_delivery_date := find_meta_value o "datedeliver" in
  if decide (current_delivery_date ≠ existing_delivery_date)
  then Sheet.set_cell s row_index (column "delivery_date") current_delivery_date
  else s.

(** [f"=M{row_index} - W{row_index}"] *)
Definition com_postage_value (row_index : nat) : string :=
  "=M" +:+ Py.str (Z.of_nat row_index) +:+ " - W" +:+ Py.str (Z.of_nat row_index).

(** The variables the loop of [write_to_excel] carries. *)
Record loop_state := {
  sheet : list (list value);
  last_order_jalali_month : option string;
  from_row : nat;
  sum_row_indices : list nat;
  new_orders_count : nat
}.

(** The insertion of an order the ledger does not hold yet. *)
Definition insert_new_order (st : loop_state) (o : order) (current_order_jalali_month : string)
  : result loop_state :=
  st ←
    (if decide (Some current_order_jalali_month ≠ last_order_jalali_month st) then
       '(s, sum_row_index) ←
         add_sum_row (sheet st) (from_row st) (Sheet.max_row (sheet st)) col_list;
       Ok {| sheet := s;
             last_order_jalali_month := Some current_order_jalali_month;
             from_row := S (Sheet.max_row s);
             sum_row_indices := sum_row_indices st ++ [sum_row_index];
             new_orders_count := S (new_orders_count st) |}
     else
       Ok {| sheet := sheet st;
             last_order_jalali_month := last_order_jalali_month st;
             from_row := from_row st;
             sum_row_indices := sum_row_indices st;
             new_orders_count := S (new_orders_count st) |});
  order_row ← create_order_row o;
  let s := Sheet.append (sheet st) order_row in
  let row_index := Sheet.max_row s in
  s ← write_products s (line_items o);
  let s := Sheet.set_cell s row_index (column "com_postage")
             (VStr (com_postage_value row_index)) in
  Ok {| sheet := s;
        last_order_jalali_month := last_order_jalali_month st;
        from_row := from_row st;
        sum_row_indices := sum_row_indices st;
        new_orders_count := new_orders_count st |}.

(** One turn of the loop over the batch. *)
Definition process_order (existing : gmap value nat) (st : loop_state) (o : order)
  : result loop_state :=
  '(jalali_date, _) ← convert_to_jalali (date_paid o);
  let current_order_jalali_month := jalali_month jalali_date in
  let last_month :=
    match last_order_jalali_month st with
    | None => Some current_order_jalali_month
    | Some m => Some m
    end in
  match existing !! VInt (order_id o) with
  | Some row_index =>
      Ok {| sheet := update_existing_order (sheet st) row_index o;
            last_order_jalali_month := Some current_order_jalali_month;
            from_row := from_row st;
            sum_row_indices := sum_row_indices st;
            new_orders_count := new_orders_count st |}
  | None =>
      insert_new_order
        {| sheet := sheet st;
           last_order_jalali_month := last_month;
           from_row := from_row st;
           sum_row_indices := sum_row_indices st;
           new_orders_count := new_orders_count st |}
        o current_order_jalali_month
  end.

Fixpoint process_orders (existing : gmap value nat) (st : loop_state) (orders : list order)
  : result loop_state :=
  match orders with
  | [] => Ok st
  | o :: orders' =>
      st' ← process_order existing st o;
      process_orders existing st' orders'
  end.

(** The sheet as the loop finds it: the header row written into an empty
    sheet, then the last two rows removed when there is more than one
    row. *)
Definition open_ledger (excel_file : option (list (list value))) : list (list value) :=
  let s := Sheet.load_workbook excel_file in
  let s :=
    if decide (Sheet.max_row s = 1%nat)
    then Sheet.append s (VStr <$> (COLUMN_HEADERS lang).*2)
    else s in
  if decide (1 < Sheet.max_row s)%nat then
    let s := Sheet.delete_rows s (Sheet.max_row s) in
    Sheet.delete_rows s (Sheet.max_row s)
  else s.

(** The end of the batch: the sum row of the last month, then the row of
    totals over all sum rows. *)
Definition close_ledger (s : list (list value)) : result (list (list value)) :=
  let sum_rows := find_sum_rows s in
  last_sum_row ←
    match last sum_rows with
    | Some r => Ok r
    | None => Raise IndexError
    end;
  '(s, _) ← add_sum_row s (S last_sum_row) (Sheet.max_row s) col_list;
  let sum_rows := find_sum_rows s in
  let col_total := calculate_totals sum_rows col_list in
  Ok (append_totals s col_total).

(** [write_to_excel(excel_file, orders)]: the sheet that is saved. *)
Definition write_to_excel (excel_file : option (list (list value))) (orders : list order)
  : result (list (list value)) :=
  let s := open_ledger excel_file in
  let existing := existing_order_ids s in
  st ← process_orders existing
         {| sheet := s;
            last_order_jalali_month := None;
            from_row := 2;
            sum_row_indices := [];
            new_orders_count := 0 |}
         orders;
  close_ledger (sheet st).

(** The ledger file after a run: what was saved, or the former file when
    the run was ended by an exception. *)
Definition ledger_after (excel_file : option (list (list value))) (orders : list order)
  : option (list (list value)) :=
  match write_to_excel excel_file orders with
  | Ok s => Some s
  | Raise _ => excel_file
  end.

(** The filter of the main program. *)
Definition not_cancelled_or_pending (o : order) : bool :=
  negb (String.eqb (order_status o) "cancelled") && negb (String.eqb (order_status o) "pending").

(** [orders.sort(key=lambda k: int(k['id']))]: a stable sort. *)
Fixpoint insert_by_id (o : order) (sorted : list order) : list order :=
  match sorted with
  | [] => [o]
  | o' :: sorted' =>
      if (order_id o' <=? order_id o)%Z then o' :: insert_by_id o sorted'
      else o :: sorted
  end.

Definition sort_by_id (orders : list order) : list order :=
  foldl (λ sorted o, insert_by_id o sorted) [] orders.

(** The batch the main program hands to [write_to_excel]. *)
Definition main_orders (all_orders : list order) : list order :=
  sort_by_id (List.filter not_cancelled_or_pending all_orders).

(** The main program after [fetch_orders]: the ledger file it leaves. *)
Definition main (excel_file : option (list (list value))) (all_orders : list order)
  : result (option (list (list value))) :=
  let orders := List.filter not_cancelled_or_pending all_orders in
  match orders with
  | [] => Ok excel_file
  | _ => s ← write_to_excel excel_file (sort_by_id orders); Ok (Some s)
  end.

End Reconcile.

(** [fetch_page(master_page, params, max_retries)] *)

(** What one call of [wcapi.get] followed by [raise_for_status] and
    [response.json()] comes to. *)
Inductive response :=
  | Json (orders : list order)
  | Timeout
  | ConnectionError
  | HTTPError
  | RequestException
  | OtherException.

Section FetchPage.

(** [wc_api['TIMEOUT']] *)
Variable TIMEOUT : Z.

(** The answer of the API to the attempt of a given number made with a
    given timeout. *)
Variable get : nat → Z → response.

Variable max_retries : nat.

(** The turns of [for attempt in range(max_retries)] from [attempt] on:
    what is returned ([None] when the loop runs out) and the timeouts of
    the attempts made. *)
Fixpoint attempts (remaining attempt : nat) : option (list order) * list Z :=
  match remaining with
  | O => (None, [])
  | S remaining' =>
      let current_timeout := TIMEOUT + 5 * Z.of_nat attempt in
      match get attempt current_timeout with
      | Json orders => (Some orders, [current_timeout])
      | Timeout | ConnectionError =>
          if decide (attempt < max_retries - 1)%nat then
            let '(returned, timeouts) := attempts remaining' (S attempt) in
            (returned, current_timeout :: timeouts)
          else (Some [], [current_timeout])
      | HTTPError | RequestException | OtherException => (Some [], [current_timeout])
      end
  end.

Definition fetch_page : option (list order) * list Z := attempts max_retries 0.

End FetchPage.

(** A failure that [fetch_page] retries. *)
Definition transient (r : response) : Prop := r = Timeout ∨ r = ConnectionError.

(** ** addresses.py *)

(** The phone number [process_replacements] writes into the document, from
    [str(row['phone'])], or from [None] where the cell is missing. *)
Definition phone_number (phone : option string) : string :=
  let phone_number :=
    match phone with
    | Some p => Py.strip p
    | None => ""
    end in
  let phone_number :=
    if Py.endswith phone_number ".0" then Py.drop_last2 phone_number else phone_number in
  if Py.startswith phone_number "9" && (Py.len phone_number =? 10)%nat
  then "0" +:+ phone_number
  else phone_number.

(** ** Sample orders and ledgers *)

Definition sample_order (id : Z) (status : string) (paid : option string)
    (first_name last_name : string) (meta : list (string * value)) : order :=
  {| order_id := id;
     order_status := status;
     date_paid := paid;
     customer_id := 7;
     billing_first_name := first_name;
     billing_last_name := last_name;
     billing_phone := "9123456789";
     billing_email := "sara@example.com";
     shipping_state := "THR";
     shipping_city := "Tehran";
     shipping_address_1 := "Street 12";
     shipping_postcode := "1234567890";
     order_total := "1000";
     discount_total := "100";
     shipping_lines := ["50"];
     meta_data := meta;
     line_items := [] |}.

Definition birthday_meta : list (string * value) := [("_billing_field_529", VStr "1370/01/01")].

(** Paid on 1403/01/06. *)
Definition order_101 : order :=
  sample_order 101 "processing" (Some "2024-03-25T10:00:00") "Sara" "Ahmadi" birthday_meta.

(** Paid on 1403/02/06. *)
Definition order_102 : order :=
  sample_order 102 "completed" (Some "2024-04-25T10:00:00") "Sara" "Ahmadi" birthday_meta.

(** Paid on 1403/03/05. *)
Definition order_103 : order :=
  sample_order 103 "processing" (Some "2024-05-25T10:00:00") "Sara" "Ahmadi" birthday_meta.

(** An order that was never paid. *)
Definition order_unpaid : order :=
  sample_order 104 "on-hold" None "Sara" "Ahmadi" birthday_meta.

(** An order without the birthday field. *)
Definition order_no_birthday : order :=
  sample_order 105 "processing" (Some "2024-03-25T10:00:00") "Sara" "Ahmadi" [].

(** An order whose billing name reads as the header of the first column. *)
Definition order_named_as_header : order :=
  sample_order 100 "processing" (Some "2024-03-25T10:00:00") "Order" "ID" birthday_meta.

(** The ledger a first run writes for [order_101] and [order_102]. *)
Definition ledger_two_months : list (list value) :=
  Eval vm_compute in
    match write_to_excel En None [order_101; order_102] with
    | Ok s => s
    | Raise _ => []
    end.

(** A ledger that holds the header row only. *)
Definition ledger_header_only : list (list value) :=
  [VStr <$> ENGLISH_COLUMN_HEADERS.*2].

(** An API that times out twice and then answers with a page. *)
Definition two_timeouts_then_page (attempt : nat) (timeout : Z) : response :=
  match attempt with
  | 0%nat | 1%nat => Timeout
  | _ => Json [order_101]
  end.

(** [order_101] as a later fetch returns it, delivered. *)
Definition order_101_delivered : order :=
  sample_order 101 "completed" (Some "2024-03-25T10:00:00") "Sara" "Ahmadi"
    (birthday_meta ++ [("datei", VStr "1403/01/08"); ("marsule", VStr "TR-1");
                       ("datedeliver", VStr "1403/01/10")]).

(** The state in which the loop of a run on [ledger_two_months] starts. *)
Definition first_turn_on_two_months : loop_state :=
  {| sheet := open_ledger En (Some ledger_two_months);
     last_order_jalali_month := None;
     from_row := 2;
     sum_row_indices := [];
     new_orders_count := 0 |}.

(** ** Predicates of the statements *)

(** A row in normal form. *)
Definition normal (rw : list value) : Prop := Sheet.normal_form rw = rw.

(** The four cells an update writes hold what the order says. *)
Definition up_to_date (lang : language) (o : order) (rw : list value) : Prop :=
  Sheet.cell_of_row rw (column lang "status") = status_label lang (order_status o)
  ∧ Sheet.cell_of_row rw (column lang "datei") = find_meta_value o "datei"
  ∧ Sheet.cell_of_row rw (column lang "tracking_code") = find_meta_value o "marsule"
  ∧ Sheet.cell_of_row rw (column lang "delivery_date") = find_meta_value o "datedeliver".

(** ** Characters and digits *)

(** [s.count(c)] for one character. *)
Fixpoint count_char (c : ascii) (s : string) : nat :=
  match s with
  | EmptyString => 0
  | String a s' => if decide (a = c) then S (count_char c s') else count_char c s'
  end.

(** The digits of the translation tables: the n-th character of
    '۰۱۲۳۴۵۶۷۸۹', of '٠١٢٣٤٥٦٧٨٩' and of '0123456789'. *)
Definition persian_digit (n : nat) : string :=
  String (ascii_of_nat 219) (String (ascii_of_nat (176 + n)) EmptyString).

Definition arabic_digit (n : nat) : string :=
  String (ascii_of_nat 217) (String (ascii_of_nat (160 + n)) EmptyString).

Definition ascii_digit (n : nat) : string :=
  String (ascii_of_nat (48 + n)) EmptyString.

(** The number written with the digits of one script. *)
Definition spell (script : nat → string) (ds : list nat) : string :=
  foldr (λ d acc, script d +:+ acc) EmptyString ds.

(** A string of ASCII characters only. *)
Fixpoint ascii_only (s : string) : bool :=
  match s with
  | EmptyString => true
  | String a s' => (nat_of_ascii a <? 128)%nat && ascii_only s'
  end.

(** [address_1.translate(persian_to_english).translate(arabic_to_english)] *)
Definition to_english_digits (s : string) : string :=
  Py.translate_arabic (Py.translate_persian s).

(** ** fetch_orders *)

Section FetchOrders.

Variable TIMEOUT : Z.

(** The answer of the API for a page, to the attempt of a given number
    made with a given timeout. *)
Variable get : nat → nat → Z → response.

(** The pages [fetch_orders] submits: the loop stops once [page > 10]. *)
Definition submitted_pages : list nat := seq 1 10.

(** [if orders: all_orders.extend(orders)]; [None] and the empty list add
    nothing. *)
Definition extend (all_orders : list order) (orders : option (list order)) : list order :=
  match orders with
  | Some (o :: orders') => all_orders ++ o :: orders'
  | _ => all_orders
  end.

(** The collection of the results, in the order in which the futures
    complete. *)
Definition fetch_orders (completed : list nat) : list order :=
  foldl (λ all_orders page, extend all_orders (fetch_page TIMEOUT (get page) 3).1) [] completed.

End FetchOrders.

(** An API with two orders on each of the first two pages and nothing
    after them. *)
Definition two_pages (page attempt : nat) (timeout : Z) : response :=
  match page with
  | 1%nat => Json [order_101; order_102]
  | 2%nat => Json [order_103; order_named_as_header]
  | _ => Json []
  end.

(** An API that answers the first attempt with an HTTP error. *)
Definition http_error_at_once (attempt : nat) (timeout : Z) : response := HTTPError.

(** An order whose total has decimals. *)
Definition order_decimal_total : order :=
  {| order_id := 107;
     order_status := "processing";
     date_paid := Some "2024-03-25T10:00:00";
     customer_id := 7;
     billing_first_name := "Sara";
     billing_last_name := "Ahmadi";
     billing_phone := "9123456789";
     billing_email := "sara@example.com";
     shipping_state := "THR";
     shipping_city := "Tehran";
     shipping_address_1 := "Street 12";
     shipping_postcode := "1234567890";
     order_total := "1000.50";
     discount_total := "100";
     shipping_lines := ["50"];
     meta_data := birthday_meta;
     line_items := [] |}.

(** ** addresses.py: the rows of the mail merge *)

(** [isinstance(v, str)] *)
Definition isinstance_str (v : value) : bool :=
  match v with
  | VStr _ => true
  | _ => false
  end.

(** A DataFrame: the names of its columns and its rows of cells. *)
Record DataFrame := {
  df_columns : list string;
  df_rows : list (list value)
}.

Section Addresses.

Variable lang : language.

(** [str.lower] of the Python runtime. *)
Variable lower : string → string.

(** [PROCESSING_STATUS = STATUS['processing']] *)
Definition PROCESSING_STATUS : string := default "" (Py.get (STATUS lang) "processing").

(** One element of [df['status'].str.strip().str.lower() == PROCESSING_STATUS]:
    a cell that is not a string gives NaN, which is equal to nothing. *)
Definition is_processing (status : value) : bool :=
  match status with
  | VStr s => bool_decide (lower (Py.strip s) = PROCESSING_STATUS)
  | _ => false
  end.

(** [filter_processing_orders(df)].  The [.str] accessor of a column that
    holds rows but no string (a column of numbers or of empty cells) raises
    [AttributeError]. *)
Definition filter_processing_orders (df : DataFrame) : result DataFrame :=
  if decide ("status" ∈ df_columns df) then
    let status := (λ row, Sheet.cell_of_row row (S (Py.index (df_columns df) "status")))
                    <$> df_rows df in
    if bool_decide (status ≠ []) && forallb (λ v, negb (isinstance_str v)) status
    then Raise AttributeError
    else Ok {| df_columns := df_columns df;
               df_rows := filter (λ row, is_processing
                                           (Sheet.cell_of_row row
                                              (S (Py.index (df_columns df) "status"))))
                            (df_rows df) |}
  else Ok {| df_columns := []; df_rows := [] |}.

End Addresses.

(** [str.lower] on ASCII letters. *)
Definition ascii_lower_char (a : ascii) : ascii :=
  let n := nat_of_ascii a in
  if (65 <=? n)%nat && (n <=? 90)%nat then ascii_of_nat (n + 32) else a.

Fixpoint ascii_lower (s : string) : string :=
  match s with
  | EmptyString => EmptyString
  | String a s' => String (ascii_lower_char a) (ascii_lower s')
  end.

(** The ledger of two months as [read_excel] hands it on: the names of the
    columns are the keys of the headers. *)
Definition ledger_frame : DataFrame :=
  {| df_columns := ENGLISH_COLUMN_HEADERS.*1;
     df_rows := drop 1 ledger_two_months |}.

(** * Facts about the worksheet *)

Module SheetFacts.
Import Sheet.
Local Open Scope nat_scope.

Lemma normal_form_lookup (l : list value) (k : nat) :
  default VNone (normal_form l !! k) = default VNone (l !! k).
Proof.
  revert k. induction l as [|v l IH]; intros k; [done|].
  simpl. destruct (normal_form l) as [|w l'] eqn:E.
  - destruct v; destruct k as [|k]; simpl; try done;
      by rewrite <- (IH k).
  - destruct k as [|k]; simpl; [done|]. by rewrite <- (IH k).
Qed.

Lemma cell_of_row_normal_form (l : list value) (c : nat) :
  cell_of_row (normal_form l) c = cell_of_row l c.
Proof. destruct c; [done|]. apply normal_form_lookup. Qed.

Lemma normal_form_idem (l : list value) : normal_form (normal_form l) = normal_form l.
Proof.
  induction l as [|v l IH]; [done|].
  simpl. destruct (normal_form l) as [|w l'] eqn:E.
  - destruct v; simpl; by rewrite ?E.
  - simpl in *. rewrite IH. done.
Qed.

Lemma cell_of_row_write_row (rw : list value) (c c' : nat) (v : value) :
  cell_of_row (write_row rw c v) c' =
  if decide (c = c' ∧ c ≠ 0) then v else cell_of_row rw c'.
Proof.
  destruct (decide (c = c' ∧ c ≠ 0)) as [H|H].
  { destruct H as [<- H]. destruct c as [|k]; [done|]. unfold write_row.
    rewrite cell_of_row_normal_form. unfold cell_of_row.
    rewrite list_lookup_insert_eq; [done|].
    rewrite length_app, length_replicate. lia. }
  destruct c as [|k]; [done|]. unfold write_row.
  rewrite cell_of_row_normal_form.
  destruct c' as [|k']; [done|]. unfold cell_of_row.
  destruct (decide (k = k')) as [->|Hk]; [naive_solver|].
  rewrite list_lookup_insert_ne by done.
  destruct (decide (k' < length rw)).
  - by rewrite lookup_app_l.
  - rewrite lookup_app_r by lia.
    rewrite (lookup_ge_None_2 rw) by lia.
    destruct (replicate _ _ !! _) eqn:E; [|done].
    apply lookup_replicate in E as [-> _]. done.
Qed.

Lemma length_set_cell (s : list (list value)) (r c : nat) (v : value) :
  length (set_cell s r c v) = length s `max` r.
Proof.
  destruct r as [|k]; simpl; [lia|].
  rewrite length_alter, length_app, length_replicate. lia.
Qed.

Lemma cell_value_set_cell (s : list (list value)) (r c r' c' : nat) (v : value) :
  cell_value (set_cell s r c v) r' c' =
  if decide (r = r' ∧ c = c' ∧ r ≠ 0 ∧ c ≠ 0) then v else cell_value s r' c'.
Proof.
  destruct r as [|k].
  { destruct (decide _); [lia|done]. }
  destruct r' as [|k'].
  { destruct (decide _); [lia|done]. }
  unfold set_cell, cell_value.
  set (s' := s ++ replicate (S k - length s) []).
  assert (Hs' : ∀ j, default [] (s' !! j) = default [] (s !! j)).
  { intros j. unfold s'. destruct (decide (j < length s)).
    - by rewrite lookup_app_l.
    - rewrite lookup_app_r by lia. rewrite (lookup_ge_None_2 s) by lia.
      destruct (replicate _ _ !! _) eqn:E; [|done].
      apply lookup_replicate in E as [-> _]. done. }
  destruct (decide (k = k')) as [->|Hne].
  - rewrite list_lookup_alter_eq.
    assert (is_Some (s' !! k')) as [rw Hrw].
    { apply lookup_lt_is_Some. unfold s'. rewrite length_app, length_replicate. lia. }
    rewrite Hrw. simpl. rewrite cell_of_row_write_row.
    specialize (Hs' k'). rewrite Hrw in Hs'. simpl in Hs'. rewrite <- Hs'.
    destruct (decide (k' = k' ∧ c = c' ∧ c ≠ 0)) as [(_ & -> & ?)|Hn].
    * rewrite decide_True; [|done]. by rewrite decide_True.
    * rewrite decide_False; [|tauto]. by rewrite decide_False by tauto.
  - rewrite list_lookup_alter_ne by done. rewrite Hs'.
    destruct (decide _); [lia|done].
Qed.
End SheetFacts.

(** * The error monad *)

#[global] Arguments convert_to_jalali : simpl never.
#[global] Arguments create_order_row : simpl never.
#[global] Arguments add_sum_row : simpl never.
#[global] Arguments update_existing_order : simpl never.
#[global] Arguments Sheet.set_cell : simpl never.
#[global] Arguments Sheet.cell_value : simpl never.
#[global] Arguments column : simpl never.

Lemma bind_Ok {A B} (m : result A) (f : A → result B) (b : B) :
  m ≫= f = Ok b → ∃ a, m = Ok a ∧ f a = Ok b.
Proof. destruct m as [a|e]; [by exists a|done]. Qed.

Lemma bind_raises {A B} (m : result A) (f : A → result B) :
  raises m → raises (m ≫= f).
Proof. intros [e ->]. by exists e. Qed.

Lemma raises_or_Ok {A} (m : result A) : raises m ∨ is_Ok m.
Proof. destruct m as [a|e]; [right; by exists a|left; by exists e]. Qed.

Lemma process_orders_app lang existing st orders orders' :
  process_orders lang existing st (orders ++ orders') =
  process_orders lang existing st orders ≫= λ st', process_orders lang existing st' orders'.
Proof.
  revert st. induction orders as [|o orders IH]; intros st; [done|].
  simpl. destruct (process_order lang existing st o) as [st'|e]; [apply IH|done].
Qed.

Lemma process_orders_raises lang existing o orders :
  (∀ st, raises (process_order lang existing st o)) →
  o ∈ orders →
  ∀ st, raises (process_orders lang existing st orders).
Proof.
  intros Ho. induction orders as [|o' orders IH]; intros Hin st.
  - by apply elem_of_nil in Hin.
  - simpl. apply elem_of_cons in Hin as [<-|Hin].
    + apply bind_raises, Ho.
    + destruct (process_order lang existing st o') as [st'|e]; [by apply IH|by exists e].
Qed.

Lemma write_to_excel_raises lang file o orders :
  (∀ st, raises (process_order lang (existing_order_ids lang (open_ledger lang file)) st o)) →
  o ∈ orders →
  raises (write_to_excel lang file orders).
Proof.
  intros Ho Hin. unfold write_to_excel.
  apply bind_raises. by eapply process_orders_raises.
Qed.

(** * The claims on single functions *)

(** C2, on a failing input: the first run on a file that does not exist
    yet, with a batch of one order, finds no sum row at the end of the
    batch, and [sum_rows[-1]] raises [IndexError]; no sum row, no row of
    totals, nothing saved. *)
Theorem new_file_one_month_raises_IndexError :
  write_to_excel En None [order_101] = Raise IndexError
  ∧ ledger_after En None [order_101] = None.
Proof. split; vm_compute; reflexivity. Qed.

(** C3, the code against the claim: an order without paid timestamp makes
    [write_to_excel] raise, wherever it stands in the batch; with the order
    in front, the exception is the [AttributeError] of [None.split]. *)
Theorem unpaid_order_aborts_batch lang file o orders :
  date_paid o = None →
  o ∈ orders →
  raises (write_to_excel lang file orders)
  ∧ ∀ rest, write_to_excel lang file (o :: rest) = Raise AttributeError.
Proof.
  intros Hd Hin. split.
  - eapply write_to_excel_raises; [|done].
    intros st. unfold process_order. rewrite Hd. by exists AttributeError.
  - intros rest. unfold write_to_excel. simpl. unfold process_order. by rewrite Hd.
Qed.

Lemma unpaid_order_aborts_batch_witness :
  date_paid order_unpaid = None
  ∧ order_unpaid ∈ [order_101; order_unpaid; order_102]
  ∧ raises (write_to_excel En (Some ledger_two_months) [order_101; order_unpaid; order_102]).
Proof.
  split; [reflexivity|]. split; [set_solver|].
  apply (unpaid_order_aborts_batch En (Some ledger_two_months) order_unpaid
           [order_101; order_unpaid; order_102]); [reflexivity|set_solver].
Defined.

(** C5, on a failing input: a later run on the ledger of [order_101]
    (paid in 1403-01) and [order_102] (paid in 1403-02) that brings
    [order_103] (paid in 1403-03).  The sum row written for the month
    that ends sums from [from_row = 2]: its range holds row 2, the order
    of 1403-01, which the sum row of row 3 sums already, and row 3
    itself. *)
Theorem later_run_sum_row_spans_earlier_bucket :
  ∃ s, write_to_excel En (Some ledger_two_months) [order_101; order_102; order_103] = Ok s
    ∧ Sheet.cell_value s 2 (column En "order_id") = VInt 101
    ∧ Sheet.cell_value s 2 (column En "date_paid") = VStr "1403/01/06"
    ∧ Sheet.cell_value s 4 (column En "date_paid") = VStr "1403/02/06"
    ∧ find_sum_rows En s = [3; 5; 7]%nat
    ∧ Sheet.cell_value s 3 (column En "total") = VStr (sum_formula (column En "total") 2 2)
    ∧ Sheet.cell_value s 5 (column En "total") = VStr (sum_formula (column En "total") 2 4)
    ∧ Sheet.cell_value s 5 (column En "total") = VStr "=SUM(L2:L4)".
Proof. eexists. split; [vm_compute; reflexivity|]. repeat split; vm_compute; reflexivity. Qed.

(** ** Phone numbers *)

Lemma is_digit_facts (a : ascii) :
  Py.is_digit a = true →
  Py.is_space a = false ∧ Py.is_continuation a = false ∧ a ≠ "."%char.
Proof. destruct a as [[] [] [] [] [] [] [] []]; try discriminate; done. Qed.

Lemma is_digit_not_wide_space (a b c : ascii) :
  Py.is_digit a = true → Py.is_space2 a b = false ∧ Py.is_space3 a b c = false.
Proof. destruct a as [[] [] [] [] [] [] [] []]; try discriminate; done. Qed.

Lemma lstrip_not_space (a : ascii) (s : string) :
  Py.is_space a = false →
  (∀ b, Py.is_space2 a b = false) →
  (∀ b c, Py.is_space3 a b c = false) →
  Py.lstrip (String a s) = String a s.
Proof.
  intros H1 H2 H3. destruct s as [|b [|c s]]; simpl; rewrite H1; [done| |].
  - by rewrite H2.
  - by rewrite H2, H3.
Qed.

Lemma lstrip_digit (a : ascii) (s : string) :
  Py.is_digit a = true → Py.lstrip (String a s) = String a s.
Proof.
  intros Ha. apply lstrip_not_space.
  - by apply is_digit_facts.
  - intros b. by apply (is_digit_not_wide_space a b b).
  - intros b c. by apply (is_digit_not_wide_space a b c).
Qed.

Lemma rstrip_cons (a : ascii) (s : string) :
  Py.lstrip (String a s) = String a s →
  Py.rstrip (String a s) = String a (Py.rstrip s).
Proof.
  intros H. change (Py.rstrip (String a s))
    with (match Py.lstrip (String a s) with
          | EmptyString => EmptyString
          | _ => String a (Py.rstrip s)
          end).
  by rewrite H.
Qed.

Lemma lstrip_digits (d : string) : Py.all_digits d → Py.lstrip d = d.
Proof.
  destruct d as [|a d]; [done|]. simpl Py.all_digits. intros [Ha _]%andb_prop_elim.
  apply lstrip_digit. by apply Is_true_eq_true.
Qed.

Lemma rstrip_digits (d : string) : Py.all_digits d → Py.rstrip d = d.
Proof.
  induction d as [|a d IH]; [done|]. simpl Py.all_digits. intros [Ha Hd]%andb_prop_elim.
  rewrite rstrip_cons; [by rewrite IH|]. apply lstrip_digit. by apply Is_true_eq_true.
Qed.

Lemma endswith_digits (d : string) : Py.all_digits d → Py.endswith d ".0" = false.
Proof.
  induction d as [|a d IH]; [done|]. simpl. intros [Ha Hd]%andb_prop_elim.
  apply Is_true_eq_true, is_digit_facts in Ha as (_ & _ & Ha).
  rewrite decide_False by congruence. by apply IH.
Qed.

Lemma len_digits (d : string) : Py.all_digits d → Py.len d = String.length d.
Proof.
  induction d as [|a d IH]; [done|]. simpl. intros [Ha Hd]%andb_prop_elim.
  apply Is_true_eq_true, is_digit_facts in Ha as (_ & -> & _). by rewrite IH.
Qed.

Lemma lstrip_digits_dot0 (d : string) : Py.all_digits d → Py.lstrip (d +:+ ".0") = d +:+ ".0".
Proof.
  destruct d as [|a d]; [done|]. simpl Py.all_digits. intros [Ha _]%andb_prop_elim.
  apply (lstrip_digit a (d +:+ ".0")). by apply Is_true_eq_true.
Qed.

Lemma rstrip_digits_dot0 (d : string) : Py.all_digits d → Py.rstrip (d +:+ ".0") = d +:+ ".0".
Proof.
  induction d as [|a d IH]; [done|]. simpl Py.all_digits. intros [Ha Hd]%andb_prop_elim.
  change (String a d +:+ ".0") with (String a (d +:+ ".0")).
  rewrite rstrip_cons; [by rewrite IH|]. apply lstrip_digit. by apply Is_true_eq_true.
Qed.

Lemma endswith_dot0 (d : string) : Py.endswith (d +:+ ".0") ".0" = true.
Proof.
  induction d as [|a d IH]; [done|]. simpl. rewrite IH. by destruct (decide _).
Qed.

Lemma drop_last2_dot0 (d : string) : Py.drop_last2 (d +:+ ".0") = d.
Proof.
  induction d as [|a d IH]; [done|].
  change (String a d +:+ ".0") with (String a (d +:+ ".0")).
  assert (∃ x y r, d +:+ ".0" = String x (String y r)) as (x & y & r & E).
  { destruct d as [|x [|y d]]; simpl; eauto. }
  rewrite E in *. simpl. simpl in IH. by rewrite IH.
Qed.

(** C6, as the code has it: for a phone value made of digits, a trailing
    ".0" is removed before the test; a value of ten digits that begins
    with "9" gets a "0" in front, so that the result has eleven digits;
    every other value made of digits, one of nine digits among them, stays
    as it is. *)
Theorem phone_number_ten_digits (d : string) :
  Py.all_digits d →
  phone_number (Some d)
  = (if Py.startswith d "9" && (String.length d =? 10)%nat then "0" +:+ d else d)
  ∧ phone_number (Some (d +:+ ".0")) = phone_number (Some d)
  ∧ (Py.startswith d "9" = true → String.length d = 10%nat →
     phone_number (Some d) = "0" +:+ d
     ∧ Py.all_digits (phone_number (Some d))
     ∧ String.length (phone_number (Some d)) = 11%nat)
  ∧ (String.length d = 9%nat → phone_number (Some d) = d).
Proof.
  intros Hd.
  assert (phone_number (Some d)
          = (if Py.startswith d "9" && (String.length d =? 10)%nat then "0" +:+ d else d)) as H1.
  { unfold phone_number, Py.strip.
    by rewrite lstrip_digits, rstrip_digits, endswith_digits, len_digits by done. }
  split; [exact H1|]. split; [|split].
  - rewrite H1. unfold phone_number, Py.strip.
    rewrite lstrip_digits_dot0, rstrip_digits_dot0, endswith_dot0, drop_last2_dot0 by done.
    by rewrite len_digits.
  - intros H9 H10. rewrite H1, H9, H10. simpl. split; [done|]. split; [done|]. by f_equal.
  - intros H9. rewrite H1, H9. simpl. by rewrite andb_false_r.
Qed.

Lemma phone_number_ten_digits_witness :
  Py.all_digits "9123456789"
  ∧ phone_number (Some "9123456789") = "09123456789"
  ∧ phone_number (Some "9123456789.0") = "09123456789"
  ∧ String.length (phone_number (Some "9123456789")) = 11%nat.
Proof.
  split; [exact I|].
  destruct (phone_number_ten_digits "9123456789" I) as (H1 & H2 & H3 & _).
  split; [exact H1|]. split; [exact (eq_trans H2 H1)|].
  exact (proj2 (proj2 (H3 eq_refl eq_refl))).
Defined.

(** A number of nine digits that begins with "9" is left as it is. *)
Lemma phone_number_nine_digits_unchanged :
  Py.all_digits "912345678"
  ∧ String.length "912345678" = 9%nat
  ∧ Py.startswith "912345678" "9" = true
  ∧ phone_number (Some "912345678") = "912345678"
  ∧ phone_number (Some "912345678.0") = "912345678"
  ∧ phone_number (Some "912345678") ≠ "0" +:+ "912345678".
Proof. repeat split; try done. Qed.

(** ** fetch_page *)

Lemma attempts_timeouts TIMEOUT get max_retries remaining attempt :
  (attempts TIMEOUT get max_retries remaining attempt).2
  = (λ i, TIMEOUT + 5 * Z.of_nat i)
      <$> seq attempt (length (attempts TIMEOUT get max_retries remaining attempt).2)
  ∧ (length (attempts TIMEOUT get max_retries remaining attempt).2 ≤ remaining)%nat.
Proof.
  revert attempt. induction remaining as [|remaining IH]; intros attempt; simpl; [done|].
  destruct (get attempt _); simpl; try (split; [done|lia]).
  all: destruct (decide _); simpl; try (split; [done|lia]).
  all: destruct (attempts _ _ _ remaining (S attempt)) as [returned timeouts] eqn:E.
  all: specialize (IH (S attempt)); rewrite E in IH; simpl in *.
  all: destruct IH as [IH1 IH2]; split; [by rewrite IH1 at 1|lia].
Qed.

(** C8: with the ceiling of three attempts, the timeouts of the attempts
    made are [TIMEOUT], [TIMEOUT + 5], [TIMEOUT + 10], in this order and at
    most three; two failures by timeout or connection error followed by a
    page give three attempts and return the page; three such failures
    return the empty list. *)
Theorem fetch_page_retries TIMEOUT get :
  (∃ n, (n ≤ 3)%nat
        ∧ (fetch_page TIMEOUT get 3).2 = (λ i, TIMEOUT + 5 * Z.of_nat i) <$> seq 0 n)
  ∧ (∀ orders,
       transient (get 0%nat TIMEOUT) →
       transient (get 1%nat (TIMEOUT + 5)) →
       get 2%nat (TIMEOUT + 10) = Json orders →
       fetch_page TIMEOUT get 3 = (Some orders, [TIMEOUT; TIMEOUT + 5; TIMEOUT + 10]))
  ∧ (transient (get 0%nat TIMEOUT) →
     transient (get 1%nat (TIMEOUT + 5)) →
     transient (get 2%nat (TIMEOUT + 10)) →
     fetch_page TIMEOUT get 3 = (Some [], [TIMEOUT; TIMEOUT + 5; TIMEOUT + 10])).
Proof.
  split; [|split].
  - destruct (attempts_timeouts TIMEOUT get 3 3 0) as [H1 H2]. eauto.
  - intros orders H0 H1 H2. unfold fetch_page. simpl.
    replace (TIMEOUT + 5 * Z.of_nat 0) with TIMEOUT by lia.
    replace (TIMEOUT + 5 * Z.of_nat 1) with (TIMEOUT + 5) by lia.
    replace (TIMEOUT + 5 * Z.of_nat 2) with (TIMEOUT + 10) by lia.
    rewrite H2. by destruct H0 as [->| ->], H1 as [->| ->].
  - intros H0 H1 H2. unfold fetch_page. simpl.
    replace (TIMEOUT + 5 * Z.of_nat 0) with TIMEOUT by lia.
    replace (TIMEOUT + 5 * Z.of_nat 1) with (TIMEOUT + 5) by lia.
    replace (TIMEOUT + 5 * Z.of_nat 2) with (TIMEOUT + 10) by lia.
    by destruct H0 as [->| ->], H1 as [->| ->], H2 as [->| ->].
Qed.

Lemma fetch_page_retries_witness :
  transient (two_timeouts_then_page 0%nat 10)
  ∧ transient (two_timeouts_then_page 1%nat (10 + 5))
  ∧ two_timeouts_then_page 2%nat (10 + 10) = Json [order_101]
  ∧ fetch_page 10 two_timeouts_then_page 3 = (Some [order_101], [10; 10 + 5; 10 + 10]).
Proof.
  assert (transient (two_timeouts_then_page 0%nat 10)) as H0 by (left; reflexivity).
  assert (transient (two_timeouts_then_page 1%nat (10 + 5))) as H1 by (left; reflexivity).
  assert (two_timeouts_then_page 2%nat (10 + 10) = Json [order_101]) as H2 by reflexivity.
  split; [exact H0|]. split; [exact H1|]. split; [exact H2|].
  exact (proj1 (proj2 (fetch_page_retries 10 two_timeouts_then_page)) [order_101] H0 H1 H2).
Defined.

(** ** The filter and the sort of the main program *)

Lemma insert_by_id_perm (o : order) (sorted : list order) :
  insert_by_id o sorted ≡ₚ o :: sorted.
Proof.
  induction sorted as [|o' sorted IH]; [done|]. simpl.
  destruct (_ <=? _); [|done]. rewrite IH. apply Permutation_swap.
Qed.

Lemma sort_by_id_perm (orders : list order) : sort_by_id orders ≡ₚ orders.
Proof.
  unfold sort_by_id.
  assert (∀ acc, foldl (λ sorted o, insert_by_id o sorted) acc orders ≡ₚ acc ++ orders) as H.
  { induction orders as [|o orders IH]; intros acc; simpl.
    - by rewrite app_nil_r.
    - rewrite IH, insert_by_id_perm. by rewrite <- Permutation_middle. }
  apply (H []).
Qed.

Lemma not_cancelled_or_pending_spec (o : order) :
  not_cancelled_or_pending o = true
  ↔ order_status o ≠ "cancelled" ∧ order_status o ≠ "pending".
Proof.
  unfold not_cancelled_or_pending.
  rewrite andb_true_iff, !negb_true_iff, !String.eqb_neq. done.
Qed.

Lemma filter_filter_same {A} (f : A → bool) (l : list A) :
  List.filter f (List.filter f l) = List.filter f l.
Proof.
  induction l as [|a l IH]; [done|]. simpl.
  destruct (f a) eqn:E; simpl; rewrite ?E, IH; done.
Qed.

(** C9: the batch that reaches [write_to_excel] holds the fetched orders
    whose status is neither 'cancelled' nor 'pending', and no other; what
    the main program does to the ledger is what it does on the fetched
    orders with the cancelled and pending ones taken out beforehand. *)
Theorem cancelled_and_pending_never_reach_ledger lang file all_orders :
  (∀ o, o ∈ main_orders all_orders
        ↔ o ∈ all_orders ∧ order_status o ≠ "cancelled" ∧ order_status o ≠ "pending")
  ∧ main lang file all_orders
    = match main_orders all_orders with
      | [] => Ok file
      | orders => s ← write_to_excel lang file orders; Ok (Some s)
      end
  ∧ main lang file all_orders
    = main lang file (List.filter not_cancelled_or_pending all_orders).
Proof.
  split; [|split].
  - intros o. unfold main_orders. rewrite sort_by_id_perm.
    rewrite list_elem_of_In, filter_In, <- list_elem_of_In.
    by rewrite not_cancelled_or_pending_spec.
  - unfold main, main_orders.
    destruct (List.filter _ all_orders) as [|o orders] eqn:E; [done|].
    destruct (sort_by_id (o :: orders)) as [|o' orders'] eqn:E'; [|done].
    pose proof (sort_by_id_perm (o :: orders)) as HP. rewrite E' in HP.
    by apply Permutation_nil_cons in HP.
  - unfold main. by rewrite filter_filter_same.
Qed.

(** ** Orders without the birthday field *)

Lemma find_meta_absent (items : list (string * value)) (key : string) :
  key ∉ items.*1 → find_meta items key = VNone.
Proof.
  induction items as [|[k v] items IH]; [done|]. simpl.
  intros [Hk Hin]%not_elem_of_cons.
  rewrite decide_False by done. by apply IH.
Qed.

(** C10: an order whose metadata holds no '_billing_field_529' makes
    [create_order_row] raise; the exception is the [AttributeError] of
    [None.translate] once the paid date converts; and a batch that holds
    such an order, not yet in the ledger, ends in an exception. *)
Theorem order_without_birthday_raises lang o :
  "_billing_field_529" ∉ (meta_data o).*1 →
  find_meta_value o "_billing_field_529" = VNone
  ∧ raises (create_order_row lang o)
  ∧ (is_Ok (convert_to_jalali (date_paid o)) → create_order_row lang o = Raise AttributeError)
  ∧ ∀ file orders,
      o ∈ orders →
      existing_order_ids lang (open_ledger lang file) !! VInt (order_id o) = None →
      raises (write_to_excel lang file orders).
Proof.
  intros Hk.
  assert (find_meta_value o "_billing_field_529" = VNone) as Hm.
  { by apply find_meta_absent. }
  assert (raises (create_order_row lang o)) as Hr.
  { unfold create_order_row. rewrite Hm.
    destruct (date_paid o) as [[|a s]|]; simpl; try by exists AttributeError.
    destruct (convert_to_jalali (Some (String a s))) as [[j t]|e]; simpl; by eexists. }
  split; [done|]. split; [done|]. split.
  - intros [[j t] Hj]. unfold create_order_row. rewrite Hm.
    destruct (date_paid o) as [[|a s]|]; simpl; try done.
    by rewrite Hj.
  - intros file orders Hin Hnew. eapply write_to_excel_raises; [|done].
    intros st. unfold process_order.
    destruct (convert_to_jalali (date_paid o)) as [[j t]|e]; simpl; [|by eexists].
    rewrite Hnew. unfold insert_new_order.
    destruct (decide _) as [?|?]; simpl.
    + destruct (add_sum_row _ _ _ _ _) as [[s i]|e]; simpl; [|by eexists].
      by apply bind_raises.
    + by apply bind_raises.
Qed.

Lemma order_without_birthday_raises_witness :
  ("_billing_field_529" ∉ (meta_data order_no_birthday).*1)
  ∧ create_order_row En order_no_birthday = Raise AttributeError
  ∧ raises (write_to_excel En (Some ledger_two_months) [order_101; order_no_birthday]).
Proof.
  assert ("_billing_field_529" ∉ (meta_data order_no_birthday).*1) as H.
  { simpl. apply not_elem_of_nil. }
  destruct (order_without_birthday_raises En order_no_birthday H) as (_ & _ & H3 & H4).
  split; [exact H|]. split.
  - apply H3. unfold is_Ok. eexists. vm_compute. reflexivity.
  - apply H4; [set_solver|]. vm_compute. reflexivity.
Defined.

(** ** The update of an existing row *)

Lemma if_set_cell_frame {P : Prop} (d : {P} + {¬ P}) (s : list (list value))
    (row col : nat) (v : value) (r c : nat) :
  ¬ (row = r ∧ col = c) →
  Sheet.cell_value (if d then Sheet.set_cell s row col v else s) r c = Sheet.cell_value s r c.
Proof.
  intros H. destruct d; [|done]. rewrite SheetFacts.cell_value_set_cell.
  destruct (decide _) as [(-> & -> & _)|_]; [|done]. by destruct H.
Qed.

Lemma if_set_cell_length {P : Prop} (d : {P} + {¬ P}) (s : list (list value))
    (row col : nat) (v : value) :
  (length s ≤ length (if d then Sheet.set_cell s row col v else s) ≤ length s `max` row)%nat.
Proof. destruct d; rewrite ?SheetFacts.length_set_cell; lia. Qed.

Lemma update_existing_order_frame lang s row_index o r c :
  ¬ (r = row_index
     ∧ (c = column lang "status" ∨ c = column lang "datei"
        ∨ c = column lang "tracking_code" ∨ c = column lang "delivery_date")) →
  Sheet.cell_value (update_existing_order lang s row_index o) r c = Sheet.cell_value s r c.
Proof.
  intros H. unfold update_existing_order. cbv zeta.
  rewrite !if_set_cell_frame; [done|intros [<- <-]; apply H; intuition..].
Qed.

Lemma length_update_existing_order lang s row_index o :
  (length s ≤ length (update_existing_order lang s row_index o) ≤ length s `max` row_index)%nat.
Proof.
  unfold update_existing_order. cbv zeta.
  match goal with |- context [if ?d then Sheet.set_cell s ?r ?c ?v else s] =>
    pose proof (if_set_cell_length d s r c v) as H1;
    set (s1 := if d then Sheet.set_cell s r c v else s) in * end.
  match goal with |- context [if ?d then Sheet.set_cell s1 ?r ?c ?v else s1] =>
    pose proof (if_set_cell_length d s1 r c v) as H2;
    set (s2 := if d then Sheet.set_cell s1 r c v else s1) in * end.
  match goal with |- context [if ?d then Sheet.set_cell s2 ?r ?c ?v else s2] =>
    pose proof (if_set_cell_length d s2 r c v) as H3;
    set (s3 := if d then Sheet.set_cell s2 r c v else s2) in * end.
  match goal with |- context [if ?d then Sheet.set_cell s3 ?r ?c ?v else s3] =>
    pose proof (if_set_cell_length d s3 r c v) as H4;
    set (s4 := if d then Sheet.set_cell s3 r c v else s3) in * end.
  clearbody s1 s2 s3 s4. lia.
Qed.

(** * More facts about rows and sheets *)

Lemma normal_normal_form (l : list value) : normal (Sheet.normal_form l).
Proof. apply SheetFacts.normal_form_idem. Qed.

Lemma normal_nil : normal [].
Proof. done. Qed.

Lemma normal_tail (v : value) (l : list value) : normal (v :: l) → normal l.
Proof.
  unfold normal. simpl. destruct (Sheet.normal_form l) as [|w l'] eqn:E.
  - destruct v; intros [= <-]; done.
  - by intros [= <-].
Qed.

Lemma normal_all_none (l : list value) :
  normal l → (∀ k, default VNone (l !! k) = VNone) → l = [].
Proof.
  induction l as [|v l IH]; [done|]. intros Hn Hall.
  assert (l = []) as ->.
  { apply IH; [by eapply normal_tail|]. intros k. apply (Hall (S k)). }
  specialize (Hall 0%nat). simpl in Hall. subst v. done.
Qed.

Lemma normal_ext (l l' : list value) :
  normal l → normal l' →
  (∀ c, Sheet.cell_of_row l c = Sheet.cell_of_row l' c) → l = l'.
Proof.
  revert l'. induction l as [|v l IH]; intros l' Hn Hn' Hext.
  - symmetry. apply normal_all_none; [done|]. intros k. symmetry. apply (Hext (S k)).
  - destruct l' as [|v' l'].
    + apply normal_all_none; [done|]. intros k. apply (Hext (S k)).
    + f_equal.
      * apply (Hext 1%nat).
      * apply IH; [by eapply normal_tail|by eapply normal_tail|].
        intros [|k]; [done|]. apply (Hext (S (S k))).
Qed.

Lemma normal_write_row (rw : list value) (c : nat) (v : value) :
  normal rw → normal (Sheet.write_row rw c v).
Proof. destruct c; [done|]. intros _. apply normal_normal_form. Qed.

Lemma write_row_same (rw : list value) (c : nat) :
  normal rw → Sheet.write_row rw c (Sheet.cell_of_row rw c) = rw.
Proof.
  intros Hn. apply normal_ext; [by apply normal_write_row|done|].
  intros c'. rewrite SheetFacts.cell_of_row_write_row.
  destruct (decide _) as [[-> _]|_]; done.
Qed.

Lemma cell_value_lookup (s : list (list value)) (k : nat) (rw : list value) (c : nat) :
  s !! k = Some rw → Sheet.cell_value s (S k) c = Sheet.cell_of_row rw c.
Proof. unfold Sheet.cell_value. by intros ->. Qed.

Lemma cell_value_app_l (s e : list (list value)) (r c : nat) :
  (r ≤ length s)%nat → Sheet.cell_value (s ++ e) r c = Sheet.cell_value s r c.
Proof.
  intros H. destruct r as [|k]; [done|]. unfold Sheet.cell_value.
  by rewrite lookup_app_l by lia.
Qed.

Lemma cell_value_app_r (s e : list (list value)) (r c : nat) :
  (length s < r)%nat → Sheet.cell_value (s ++ e) r c = Sheet.cell_value e (r - length s) c.
Proof.
  intros H. destruct r as [|k]; [lia|]. unfold Sheet.cell_value.
  rewrite lookup_app_r by lia.
  destruct (S k - length s)%nat as [|j] eqn:E; [lia|].
  by replace (k - length s)%nat with j by lia.
Qed.

Lemma cell_value_beyond (s : list (list value)) (r c : nat) :
  (length s < r)%nat → Sheet.cell_value s r c = VNone.
Proof.
  intros H. destruct r as [|k]; [done|]. unfold Sheet.cell_value.
  rewrite lookup_ge_None_2 by lia. by destruct c.
Qed.

Lemma sheet_ext (s s' : list (list value)) :
  Forall normal s → Forall normal s' → length s = length s' →
  (∀ r c, Sheet.cell_value s r c = Sheet.cell_value s' r c) → s = s'.
Proof.
  intros Hn Hn' Hlen Hext. apply list_eq_same_length with (length s); [done|done|].
  intros k rw rw' Hk Hrw Hrw'. apply normal_ext.
  - by eapply Forall_lookup_1 in Hn.
  - by eapply Forall_lookup_1 in Hn'.
  - intros c. rewrite <- (cell_value_lookup s k rw c Hrw).
    rewrite <- (cell_value_lookup s' k rw' c Hrw'). apply Hext.
Qed.

Lemma set_cell_within (s : list (list value)) (k c : nat) (v : value) :
  (k < length s)%nat →
  Sheet.set_cell s (S k) c v = alter (λ rw, Sheet.write_row rw c v) k s.
Proof.
  intros H. unfold Sheet.set_cell.
  replace (S k - length s)%nat with 0%nat by lia. by rewrite app_nil_r.
Qed.

Lemma set_cell_app (s e : list (list value)) (rw : list value) (c : nat) (v : value) :
  Sheet.set_cell (s ++ rw :: e) (S (length s)) c v = s ++ Sheet.write_row rw c v :: e.
Proof.
  rewrite set_cell_within by (rewrite length_app; simpl; lia).
  by rewrite (alter_app_r_alt _ s) by lia; rewrite Nat.sub_diag.
Qed.

Lemma set_cell_new_row (s : list (list value)) (c : nat) (v : value) :
  Sheet.set_cell s (S (length s)) c v = s ++ [Sheet.write_row [] c v].
Proof.
  unfold Sheet.set_cell. replace (S (length s) - length s)%nat with 1%nat by lia.
  simpl. by rewrite (alter_app_r_alt _ s) by lia; rewrite Nat.sub_diag.
Qed.

Lemma Forall_normal_set_cell (s : list (list value)) (r c : nat) (v : value) :
  Forall normal s → Forall normal (Sheet.set_cell s r c v).
Proof.
  intros H. destruct r as [|k]; [done|]. unfold Sheet.set_cell.
  apply Forall_alter.
  - apply Forall_app. split; [done|]. apply Forall_replicate. apply normal_nil.
  - intros rw _ Hrw. by apply normal_write_row.
Qed.

Lemma set_cell_same (s : list (list value)) (r c : nat) :
  Forall normal s → (r ≤ length s)%nat →
  Sheet.set_cell s r c (Sheet.cell_value s r c) = s.
Proof.
  intros Hn Hr. apply sheet_ext; [by apply Forall_normal_set_cell|done| |].
  - rewrite SheetFacts.length_set_cell. lia.
  - intros r' c'. rewrite SheetFacts.cell_value_set_cell.
    destruct (decide _) as [(-> & -> & _)|_]; done.
Qed.

Lemma Forall_normal_append (s : list (list value)) (l : list value) :
  Forall normal s → Forall normal (Sheet.append s l).
Proof.
  intros H. apply Forall_app. split; [done|]. apply Forall_singleton, normal_normal_form.
Qed.

Lemma max_row_length (s : list (list value)) :
  (1 ≤ length s)%nat → Sheet.max_row s = length s.
Proof. unfold Sheet.max_row. lia. Qed.

(** * The index of the identifiers and the rows of the ledger *)

Lemma index_lookup_Some (f : nat → value) (a n : nat) (k : value) (r : nat) :
  foldl (λ m r, <[f r := r]> m) (∅ : gmap value nat) (seq a n) !! k = Some r
  ↔ (a ≤ r < a + n)%nat ∧ f r = k ∧ ∀ r', (r < r' < a + n)%nat → f r' ≠ k.
Proof.
  induction n as [|n IH].
  - simpl. rewrite lookup_empty. split; [done|]. intros [? _]. lia.
  - rewrite seq_S, foldl_snoc, lookup_insert_Some, IH. split.
    + intros [[Hk <-]|[Hk (Hr & Hf & Hlast)]].
      * split; [lia|]. split; [done|]. intros r' ?. lia.
      * split; [lia|]. split; [done|]. intros r' Hr'.
        destruct (decide (r' = a + n)%nat) as [->|?]; [done|]. apply Hlast. lia.
    + intros (Hr & Hf & Hlast).
      destruct (decide (r = a + n)%nat) as [->|?]; [by left|]. right.
      split; [apply Hlast; lia|]. split; [lia|]. split; [done|].
      intros r' Hr'. apply Hlast. lia.
Qed.

Lemma index_lookup_is_Some (f : nat → value) (a n : nat) (k : value) :
  is_Some (foldl (λ m r, <[f r := r]> m) (∅ : gmap value nat) (seq a n) !! k)
  ↔ ∃ r, (a ≤ r < a + n)%nat ∧ f r = k.
Proof.
  induction n as [|n IH].
  - simpl. rewrite lookup_empty. split; [by intros [? ?]|]. intros (r & ? & _). lia.
  - rewrite seq_S, foldl_snoc, lookup_insert_is_Some, IH. split.
    + intros [Hk|[Hk (r & Hr & Hf)]].
      * exists (a + n)%nat. split; [lia|done].
      * exists r. split; [lia|done].
    + intros (r & Hr & Hf).
      destruct (decide (f (a + n)%nat = k)) as [?|Hne]; [by left|]. right.
      split; [done|]. exists r. split; [|done].
      destruct (decide (r = a + n)%nat) as [->|?]; [done|lia].
Qed.

(** The index gives, for a value of the identifier column, the last row
    from row 2 on that holds it. *)
Lemma existing_order_ids_Some lang (s : list (list value)) (k : value) (r : nat) :
  existing_order_ids lang s !! k = Some r
  ↔ k ≠ VNone
    ∧ (2 ≤ r ≤ Sheet.max_row s)%nat
    ∧ Sheet.cell_value s r (column lang "order_id") = k
    ∧ ∀ r', (r < r' ≤ Sheet.max_row s)%nat → Sheet.cell_value s r' (column lang "order_id") ≠ k.
Proof.
  unfold existing_order_ids. rewrite map_lookup_filter_Some, index_lookup_Some. simpl.
  assert (1 ≤ Sheet.max_row s)%nat by (unfold Sheet.max_row; lia).
  split.
  - intros ((Hr & Hf & Hlast) & Hk). split; [done|]. split; [lia|]. split; [done|].
    intros r' Hr'. apply Hlast. lia.
  - intros (Hk & Hr & Hf & Hlast). split; [|done]. split; [lia|]. split; [done|].
    intros r' Hr'. apply Hlast. lia.
Qed.

Lemma existing_order_ids_is_Some lang (s : list (list value)) (k : value) :
  is_Some (existing_order_ids lang s !! k)
  ↔ k ≠ VNone
    ∧ ∃ r, (2 ≤ r ≤ Sheet.max_row s)%nat ∧ Sheet.cell_value s r (column lang "order_id") = k.
Proof.
  assert (1 ≤ Sheet.max_row s)%nat by (unfold Sheet.max_row; lia).
  unfold existing_order_ids. split.
  - intros [r (Hm & Hk)%map_lookup_filter_Some]. split; [done|].
    apply index_lookup_Some in Hm as (Hr & Hf & _). exists r. split; [lia|done].
  - intros (Hk & r & Hr & Hf).
    destruct (proj2 (index_lookup_is_Some
                       (λ r, Sheet.cell_value s r (column lang "order_id"))
                       2 (Sheet.max_row s - 1) k)) as [r' Hr'].
    { exists r. split; [lia|done]. }
    exists r'. apply map_lookup_filter_Some. split; [exact Hr'|done].
Qed.

(** ** What the loop keeps of the rows it finds *)

Lemma prefix_set_cell (s s1 : list (list value)) (r c : nat) (v : value) :
  s `prefix_of` s1 → (length s < r)%nat → s `prefix_of` Sheet.set_cell s1 r c v.
Proof.
  intros [e ->] Hr. destruct r as [|k]; [lia|]. unfold Sheet.set_cell.
  rewrite <- (take_app_length s e) at 1.
  rewrite <- (take_app_le (s ++ e) (replicate (S k - length (s ++ e)) []) (length s))
    by (rewrite length_app; lia).
  rewrite <- (take_alter_ge (λ rw, Sheet.write_row rw c v) _ (length s) k) by lia.
  apply prefix_take.
Qed.

Lemma prefix_cell_value (s s1 : list (list value)) (r c : nat) :
  s `prefix_of` s1 → (r ≤ length s)%nat → Sheet.cell_value s1 r c = Sheet.cell_value s r c.
Proof. intros [e ->] Hr. by apply cell_value_app_l. Qed.

Lemma insert_rows_below (s : list (list value)) (idx : nat) :
  (length s < idx)%nat → Sheet.insert_rows s idx = s.
Proof. intros H. unfold Sheet.insert_rows. by rewrite decide_False by lia. Qed.

Lemma prefix_foldl_set_cell (s s1 : list (list value)) (r : nat)
    (skip : string → Prop) `{∀ x, Decision (skip x)} (col : string → nat) (v : string → value)
    (cols : list string) :
  s `prefix_of` s1 → (length s < r)%nat →
  s `prefix_of` foldl (λ s column_name,
                         if decide (skip column_name) then s
                         else Sheet.set_cell s r (col column_name) (v column_name)) s1 cols.
Proof.
  revert s1. induction cols as [|x cols IH]; intros s1 Hp Hr; [done|]. simpl.
  apply IH; [|done]. destruct (decide (skip x)); [done|]. by apply prefix_set_cell.
Qed.

(** A sum row added below the last row leaves the rows above alone. *)
Lemma add_sum_row_prefix lang (s : list (list value)) (from_row : nat) (cols : list string)
    (s' : list (list value)) (i : nat) :
  add_sum_row lang s from_row (Sheet.max_row s) cols = Ok (s', i) →
  i = S (Sheet.max_row s) ∧ s `prefix_of` s'.
Proof.
  assert (length s < S (Sheet.max_row s))%nat as Hlt by (unfold Sheet.max_row; lia).
  unfold add_sum_row. rewrite insert_rows_below by done.
  intros (n & _ & [= <- <-])%bind_Ok. split; [done|].
  apply prefix_foldl_set_cell; [|done].
  apply prefix_set_cell; [|done]. by apply prefix_set_cell.
Qed.

Lemma write_products_prefix (s : list (list value)) (items : list line_item)
    (s' : list (list value)) :
  write_products s items = Ok s' → s `prefix_of` s'.
Proof.
  revert s. induction items as [|item items IH]; intros s; simpl.
  - by intros [= <-].
  - intros (rw & _ & Hs')%bind_Ok. apply IH in Hs'.
    etrans; [|exact Hs']. by apply prefix_app_r.
Qed.

(** The insertion of a new order: the rows of the sheet are kept, and the
    row of the order is below them. *)
Lemma insert_new_order_rows lang (st : loop_state) (o : order) (month : string)
    (st' : loop_state) :
  insert_new_order lang st o month = Ok st' →
  sheet st `prefix_of` sheet st'
  ∧ ∃ (s1 : list (list value)) (order_row : list value) (below : list (list value)),
      sheet st `prefix_of` s1
      ∧ create_order_row lang o = Ok order_row
      ∧ sheet st'
        = Sheet.set_cell (s1 ++ Sheet.normal_form order_row :: below) (S (length s1))
            (column lang "com_postage") (VStr (com_postage_value (S (length s1)))).
Proof.
  unfold insert_new_order. intros (st1 & Hst1 & H)%bind_Ok.
  assert (sheet st `prefix_of` sheet st1) as Hp1.
  { destruct (decide _) as [?|?].
    - apply bind_Ok in Hst1 as ([s i] & Hs & [= <-]). simpl.
      by apply add_sum_row_prefix in Hs as [_ ?].
    - by injection Hst1 as <-. }
  apply bind_Ok in H as (order_row & Hrow & H).
  apply bind_Ok in H as (s3 & Hs3 & [= <-]). simpl.
  pose proof (write_products_prefix _ _ _ Hs3) as [below ->].
  unfold Sheet.append. rewrite <- app_assoc. simpl.
  assert (Sheet.max_row (sheet st1 ++ [Sheet.normal_form order_row]) = S (length (sheet st1)))
    as ->.
  { unfold Sheet.max_row. rewrite length_app. simpl. lia. }
  split.
  - apply prefix_set_cell; [|pose proof (prefix_length _ _ Hp1); lia].
    etrans; [exact Hp1|]. by apply prefix_app_r.
  - by exists (sheet st1), order_row, below.
Qed.

Lemma columns_differ lang :
  column lang "order_id" = 1%nat
  ∧ column lang "status" = 2%nat
  ∧ column lang "shipping" = 13%nat
  ∧ column lang "datei" = 21%nat
  ∧ column lang "tracking_code" = 22%nat
  ∧ column lang "com_postal_payment" = 23%nat
  ∧ column lang "com_postage" = 24%nat
  ∧ column lang "delivery_date" = 25%nat.
Proof. by destruct lang. Qed.

Lemma process_order_keeps lang (existing : gmap value nat) (st : loop_state) (o : order)
    (st' : loop_state) :
  process_order lang existing st o = Ok st' →
  (length (sheet st) ≤ length (sheet st'))%nat
  ∧ ∀ r c,
      (r ≤ length (sheet st))%nat →
      ¬ (c = column lang "status" ∨ c = column lang "datei"
         ∨ c = column lang "tracking_code" ∨ c = column lang "delivery_date") →
      Sheet.cell_value (sheet st') r c = Sheet.cell_value (sheet st) r c.
Proof.
  unfold process_order. intros ([j t] & _ & H)%bind_Ok.
  destruct (existing !! VInt (order_id o)) as [row_index|].
  - injection H as <-. simpl. split; [apply length_update_existing_order|].
    intros r c _ Hc. apply update_existing_order_frame. tauto.
  - apply insert_new_order_rows in H as [Hp _]. simpl in Hp. split.
    + by apply prefix_length.
    + intros r c Hr _. by apply prefix_cell_value.
Qed.

Lemma process_orders_keeps lang (existing : gmap value nat) (orders : list order)
    (st st' : loop_state) :
  process_orders lang existing st orders = Ok st' →
  (length (sheet st) ≤ length (sheet st'))%nat
  ∧ ∀ r c,
      (r ≤ length (sheet st))%nat →
      ¬ (c = column lang "status" ∨ c = column lang "datei"
         ∨ c = column lang "tracking_code" ∨ c = column lang "delivery_date") →
      Sheet.cell_value (sheet st') r c = Sheet.cell_value (sheet st) r c.
Proof.
  revert st. induction orders as [|o orders IH]; intros st; simpl.
  - by intros [= <-].
  - intros (st1 & H1 & H2)%bind_Ok.
    apply process_order_keeps in H1 as [Hl1 Hc1]. apply IH in H2 as [Hl2 Hc2].
    split; [lia|]. intros r c Hr Hc. rewrite Hc2 by (lia || done). by apply Hc1.
Qed.

Lemma cell_value_VInt_within (s : list (list value)) (r c : nat) (z : Z) :
  Sheet.cell_value s r c = VInt z → (1 ≤ r ≤ length s)%nat.
Proof.
  intros H. destruct r as [|k]; [done|].
  destruct (decide (S k ≤ length s)%nat); [lia|].
  rewrite cell_value_beyond in H by lia. done.
Qed.

(** C4: an order whose identifier stands in the identifier column of the
    ledger, from row 2 on, is found by the index in the last row that
    holds the identifier; whatever turns of the loop came before, that row
    still holds the identifier, and the turn for the order leaves every
    cell as it was but for the status, dispatch date, tracking code and
    delivery date cells of that row; it adds no row and leaves [from_row]
    and the sum rows of the run alone. *)
Theorem update_touches_four_cells lang (s : list (list value)) (before : list order)
    (st : loop_state) (o : order) (st' : loop_state) :
  (∃ r, (2 ≤ r ≤ Sheet.max_row s)%nat
        ∧ Sheet.cell_value s r (column lang "order_id") = VInt (order_id o)) →
  process_orders lang (existing_order_ids lang s)
    {| sheet := s; last_order_jalali_month := None; from_row := 2;
       sum_row_indices := []; new_orders_count := 0 |} before = Ok st →
  process_order lang (existing_order_ids lang s) st o = Ok st' →
  ∃ row_index,
    existing_order_ids lang s !! VInt (order_id o) = Some row_index
    ∧ (2 ≤ row_index ≤ length (sheet st))%nat
    ∧ Sheet.cell_value s row_index (column lang "order_id") = VInt (order_id o)
    ∧ Sheet.cell_value (sheet st) row_index (column lang "order_id") = VInt (order_id o)
    ∧ (∀ r c,
         ¬ (r = row_index
            ∧ (c = column lang "status" ∨ c = column lang "datei"
               ∨ c = column lang "tracking_code" ∨ c = column lang "delivery_date")) →
         Sheet.cell_value (sheet st') r c = Sheet.cell_value (sheet st) r c)
    ∧ length (sheet st') = length (sheet st)
    ∧ from_row st' = from_row st
    ∧ sum_row_indices st' = sum_row_indices st
    ∧ new_orders_count st' = new_orders_count st.
Proof.
  intros Hex Hbefore Hst.
  destruct (proj2 (existing_order_ids_is_Some lang s (VInt (order_id o))))
    as [row_index Hidx]; [by split|].
  exists row_index. split; [done|].
  pose proof (proj1 (existing_order_ids_Some _ _ _ _) Hidx) as (_ & Hr & Hcell & _).
  pose proof (cell_value_VInt_within _ _ _ _ Hcell) as Hin.
  apply process_orders_keeps in Hbefore as [Hlen Hkeep]. simpl in Hlen, Hkeep.
  destruct (columns_differ lang) as (C1 & C2 & _ & C3 & C4 & _ & _ & C5).
  split; [lia|]. split; [done|]. split.
  { rewrite Hkeep; [done|lia|]. rewrite C1, C2, C3, C4, C5. lia. }
  unfold process_order in Hst.
  destruct (convert_to_jalali (date_paid o)) as [[j t]|e]; simpl in Hst; [|done].
  rewrite Hidx in Hst. injection Hst as <-. simpl.
  split; [intros r c H; by apply update_existing_order_frame|].
  split; [|done].
  pose proof (length_update_existing_order lang (sheet st) row_index o). lia.
Qed.

Lemma update_touches_four_cells_witness :
  ∃ st',
    Sheet.cell_value (sheet first_turn_on_two_months) 2 (column En "order_id")
    = VInt (order_id order_101_delivered)
    ∧ process_order En (existing_order_ids En (sheet first_turn_on_two_months))
        first_turn_on_two_months order_101_delivered = Ok st'
    ∧ existing_order_ids En (sheet first_turn_on_two_months) !! VInt (order_id order_101_delivered)
      = Some 2%nat
    ∧ Sheet.cell_value (sheet st') 2 (column En "status") = VStr "Completed"
    ∧ Sheet.cell_value (sheet st') 2 (column En "total")
      = Sheet.cell_value (sheet first_turn_on_two_months) 2 (column En "total").
Proof.
  destruct (process_order En (existing_order_ids En (sheet first_turn_on_two_months))
              first_turn_on_two_months order_101_delivered) as [st'|e] eqn:E;
    [|vm_compute in E; discriminate].
  exists st'.
  assert (Sheet.cell_value (sheet first_turn_on_two_months) 2 (column En "order_id")
          = VInt (order_id order_101_delivered)) as H1 by (vm_compute; reflexivity).
  assert (existing_order_ids En (sheet first_turn_on_two_months)
            !! VInt (order_id order_101_delivered) = Some 2%nat) as H2
    by (vm_compute; reflexivity).
  split; [exact H1|]. split; [reflexivity|]. split; [exact H2|].
  destruct (update_touches_four_cells En (sheet first_turn_on_two_months) []
              first_turn_on_two_months order_101_delivered st') as (row & Hrow & _ & _ & _ & Hframe & _).
  - exists 2%nat. split; [|exact H1]. vm_compute. lia.
  - reflexivity.
  - exact E.
  - rewrite H2 in Hrow. injection Hrow as <-. split.
    + vm_compute in E. injection E as <-. vm_compute. reflexivity.
    + apply Hframe. vm_compute. intros [_ [H|[H|[H|H]]]]; discriminate.
Defined.

(** * The row of a new order *)

Lemma create_order_row_id lang (o : order) (order_row : list value) :
  create_order_row lang o = Ok order_row →
  Sheet.cell_of_row order_row 1 = VInt (order_id o).
Proof.
  unfold create_order_row.
  intros (date_part & _ & H)%bind_Ok.
  apply bind_Ok in H as (birthday & _ & H).
  apply bind_Ok in H as (total & _ & H).
  apply bind_Ok in H as (discount & _ & [= <-]). done.
Qed.

Lemma letters_of_com_postage lang (row_index : nat) :
  com_postage_value row_index
  = "=" +:+ Sheet.get_column_letter (column lang "shipping")
    +:+ Py.str (Z.of_nat row_index) +:+ " - "
    +:+ Sheet.get_column_letter (column lang "com_postal_payment")
    +:+ Py.str (Z.of_nat row_index).
Proof.
  destruct (columns_differ lang) as (_ & _ & -> & _ & _ & -> & _).
  reflexivity.
Qed.

(** C7, as the code has it: the turn of the loop for an order that the
    index does not hold writes a new row below the rows of the sheet; the
    row holds the identifier of the order, and its company postage cell
    holds the formula that subtracts, in that row, the cell of the
    company postal payment column from the cell of the shipping column. *)
Theorem new_order_row_com_postage lang (existing : gmap value nat) (st : loop_state)
    (o : order) (st' : loop_state) :
  existing !! VInt (order_id o) = None →
  process_order lang existing st o = Ok st' →
  ∃ row_index,
    (length (sheet st) < row_index ≤ length (sheet st'))%nat
    ∧ Sheet.cell_value (sheet st') row_index (column lang "order_id") = VInt (order_id o)
    ∧ Sheet.cell_value (sheet st') row_index (column lang "com_postage")
      = VStr ("=" +:+ Sheet.get_column_letter (column lang "shipping")
              +:+ Py.str (Z.of_nat row_index) +:+ " - "
              +:+ Sheet.get_column_letter (column lang "com_postal_payment")
              +:+ Py.str (Z.of_nat row_index)).
Proof.
  intros Hnew Hst. unfold process_order in Hst.
  apply bind_Ok in Hst as ([j t] & _ & Hst). rewrite Hnew in Hst.
  apply insert_new_order_rows in Hst as (_ & s1 & order_row & below & Hp & Hrow & ->).
  simpl in Hp. apply prefix_length in Hp.
  destruct (columns_differ lang) as (C1 & _ & _ & _ & _ & _ & C24 & _).
  exists (S (length s1)). split; [|split].
  - rewrite SheetFacts.length_set_cell, length_app. simpl. lia.
  - rewrite SheetFacts.cell_value_set_cell, C1, C24.
    rewrite decide_False by lia.
    rewrite (cell_value_lookup _ (length s1) (Sheet.normal_form order_row))
      by (by rewrite list_lookup_middle).
    rewrite SheetFacts.cell_of_row_normal_form. by apply (create_order_row_id lang).
  - rewrite SheetFacts.cell_value_set_cell, C24.
    rewrite decide_True by lia. f_equal. apply letters_of_com_postage.
Qed.

Lemma new_order_row_com_postage_witness :
  ∃ st',
    existing_order_ids En (sheet first_turn_on_two_months) !! VInt (order_id order_103) = None
    ∧ process_order En (existing_order_ids En (sheet first_turn_on_two_months))
        first_turn_on_two_months order_103 = Ok st'
    ∧ Sheet.cell_value (sheet st') 5 (column En "order_id") = VInt 103
    ∧ Sheet.cell_value (sheet st') 5 (column En "com_postage") = VStr "=M5 - W5".
Proof.
  destruct (process_order En (existing_order_ids En (sheet first_turn_on_two_months))
              first_turn_on_two_months order_103) as [st'|e] eqn:E;
    [|vm_compute in E; discriminate].
  exists st'.
  assert (existing_order_ids En (sheet first_turn_on_two_months) !! VInt (order_id order_103)
          = None) as H1 by (vm_compute; reflexivity).
  split; [exact H1|]. split; [reflexivity|].
  destruct (new_order_row_com_postage En _ _ _ _ H1 E) as (row_index & Hr & Hid & Hf).
  assert (row_index = 5%nat) as ->.
  { assert (length (sheet first_turn_on_two_months) = 4%nat) as E4 by (vm_compute; reflexivity).
    assert (length (sheet st') = 5%nat) as E5.
    { vm_compute in E. injection E as <-. vm_compute. reflexivity. }
    lia. }
  split; [exact Hid|exact Hf].
Defined.

(** The formula of the company postage cell names the shipping column, not
    the total column. *)
Lemma com_postage_is_not_total_minus_payment :
  ∃ s,
    write_to_excel En None [order_101; order_102] = Ok s
    ∧ Sheet.cell_value s 2 (column En "order_id") = VInt 101
    ∧ Sheet.cell_value s 2 (column En "com_postage") = VStr "=M2 - W2"
    ∧ Sheet.get_column_letter (column En "total") = "L"
    ∧ Sheet.get_column_letter (column En "shipping") = "M"
    ∧ Sheet.get_column_letter (column En "com_postal_payment") = "W"
    ∧ Sheet.cell_value s 2 (column En "com_postage")
      ≠ VStr ("=" +:+ Sheet.get_column_letter (column En "total") +:+ "2 - "
              +:+ Sheet.get_column_letter (column En "com_postal_payment") +:+ "2").
Proof.
  exists ledger_two_months. split; [vm_compute; reflexivity|].
  repeat split; try (vm_compute; reflexivity). vm_compute. discriminate.
Qed.

(** * A second run on the ledger of the first *)

(** C1, on failing inputs.  On a file that does not exist yet and a batch
    within one month, the first run ends in the [IndexError] of
    [sum_rows[-1]] and saves nothing, and so does the second run on what it
    left.  On a ledger that holds the header row only, the header row is
    written once more and then removed with the row above it, so that the
    first order of the batch goes to row 1, where the index of the second
    run, built from row 2 on, does not find it: the second run ends
    normally and writes that order again, in a new row. *)
Theorem second_run_fails_or_writes_again :
  (write_to_excel En None [order_101] = Raise IndexError
   ∧ ledger_after En None [order_101] = None
   ∧ write_to_excel En (ledger_after En None [order_101]) [order_101] = Raise IndexError)
  ∧ ∃ s1 s2,
      write_to_excel En (Some ledger_header_only) [order_named_as_header; order_102] = Ok s1
      ∧ write_to_excel En (Some s1) [order_named_as_header; order_102] = Ok s2
      ∧ length s1 = 5%nat
      ∧ length s2 = 6%nat
      ∧ open_ledger En (Some ledger_header_only) = []
      ∧ Sheet.cell_value s1 1 (column En "order_id") = VInt (order_id order_named_as_header)
      ∧ existing_order_ids En (open_ledger En (Some s1))
          !! VInt (order_id order_named_as_header) = None
      ∧ Sheet.cell_value s1 4 (column En "order_id") = VNone
      ∧ Sheet.cell_value s2 1 (column En "order_id") = VInt (order_id order_named_as_header)
      ∧ Sheet.cell_value s2 4 (column En "order_id") = VInt (order_id order_named_as_header).
Proof.
  split; [repeat split; vm_compute; reflexivity|].
  destruct (write_to_excel En (Some ledger_header_only) [order_named_as_header; order_102])
    as [s1|e] eqn:E1; [|vm_compute in E1; discriminate].
  destruct (write_to_excel En (Some s1) [order_named_as_header; order_102])
    as [s2|e] eqn:E2.
  - exists s1, s2. vm_compute in E1. injection E1 as <-.
    vm_compute in E2. injection E2 as <-.
    repeat split; vm_compute; reflexivity.
  - vm_compute in E1. injection E1 as <-. vm_compute in E2. discriminate.
Qed.

(** * Further properties of the program *)

(** ** get_key_by_value and the status labels *)

Lemma Py_get_elem_of {A} (d : list (string * A)) (k : string) (v : A) :
  Py.get d k = Some v → (k, v) ∈ d.
Proof.
  induction d as [|[k' v'] d IH]; [done|]. simpl.
  destruct (decide (k' = k)) as [->|?].
  - intros [= ->]. left.
  - intros H. right. by apply IH.
Qed.

Lemma Py_get_first {A} (d : list (string * A)) (k : string) (v : A) :
  NoDup d.*1 → (k, v) ∈ d → Py.get d k = Some v.
Proof.
  induction d as [|[k' v'] d IH]; [by intros _ ?%elem_of_nil|].
  simpl. intros [Hk Hd]%NoDup_cons [[= -> ->]|Hin]%elem_of_cons.
  - by rewrite decide_True.
  - rewrite decide_False; [by apply IH|].
    intros ->. apply Hk. apply list_elem_of_fmap. by exists (k, v).
Qed.

Lemma get_key_by_value_Some (d : list (string * string)) (v : value) (k : string) :
  get_key_by_value d v = Some k → ∃ lbl, v = VStr lbl ∧ (k, lbl) ∈ d.
Proof.
  induction d as [|[k' l] d IH]; [done|]. simpl.
  destruct (decide (VStr l = v)) as [<-|?].
  - intros [= <-]. exists l. split; [done|left].
  - intros H. destruct (IH H) as (lbl & -> & Hin). exists lbl. split; [done|by right].
Qed.

Lemma get_key_by_value_first (d : list (string * string)) (k lbl : string) :
  NoDup d.*2 → (k, lbl) ∈ d → get_key_by_value d (VStr lbl) = Some k.
Proof.
  induction d as [|[k' l] d IH]; [by intros _ ?%elem_of_nil|].
  simpl. intros [Hl Hd]%NoDup_cons [[= -> ->]|Hin]%elem_of_cons.
  - by rewrite decide_True.
  - rewrite decide_False; [by apply IH|].
    intros [= ->]. apply Hl. apply list_elem_of_fmap. by exists (k, lbl).
Qed.

Lemma STATUS_NoDup lang : NoDup (STATUS lang).*1 ∧ NoDup (STATUS lang).*2.
Proof. destruct lang; split; apply (bool_decide_unpack _); vm_compute; reflexivity. Qed.

Lemma get_key_by_value_status_label lang (status : string) (v : value) :
  get_key_by_value (STATUS lang) v = Some status → status_label lang status = v.
Proof.
  intros (lbl & -> & Hin)%get_key_by_value_Some. unfold status_label.
  by rewrite (Py_get_first _ _ lbl) by (apply STATUS_NoDup || done).
Qed.

(** X1: [get_key_by_value] on the status table undoes [STATUS.get]: the
    key found for a cell value other than [None] is the status whose
    label the cell holds, so that the test of [write_to_excel] on the
    keys is a test on the labels. *)
Theorem status_key_of_label lang (status : string) (v : value) :
  v ≠ VNone →
  get_key_by_value (STATUS lang) v = Some status ↔ status_label lang status = v.
Proof.
  intros Hv. split; [apply get_key_by_value_status_label|].
  unfold status_label. destruct (Py.get (STATUS lang) status) as [lbl|] eqn:E; [|by intros <-].
  intros <-. apply get_key_by_value_first; [apply STATUS_NoDup|by apply Py_get_elem_of].
Qed.

Lemma status_key_of_label_witness :
  VStr "Completed" ≠ VNone
  ∧ get_key_by_value (STATUS En) (VStr "Completed") = Some "completed"
  ∧ status_label Fa "deliver" = VStr "ارسال شده".
Proof.
  assert (VStr "Completed" ≠ VNone) as H by done.
  split; [exact H|]. split.
  - apply (status_key_of_label En "completed" (VStr "Completed") H). reflexivity.
  - apply (status_key_of_label Fa "deliver" (VStr "ارسال شده")); [done|]. reflexivity.
Defined.

(** ** find_meta_value *)

(** X2: [find_meta_value] returns the value of the first item of
    [meta_data] with the key; what follows that item is not looked at. *)
Theorem find_meta_value_first_match (o : order) (before after : list (string * value))
    (key : string) (v : value) :
  meta_data o = before ++ (key, v) :: after →
  key ∉ before.*1 →
  find_meta_value o key = v.
Proof.
  unfold find_meta_value. intros -> Hk.
  induction before as [|[k' v'] before IH]; simpl.
  - by rewrite decide_True.
  - simpl in Hk. apply not_elem_of_cons in Hk as [Hk Hin].
    rewrite decide_False by done. by apply IH.
Qed.

Lemma find_meta_value_first_match_witness :
  find_meta_value order_101_delivered "marsule" = VStr "TR-1".
Proof.
  apply (find_meta_value_first_match order_101_delivered
           [("_billing_field_529", VStr "1370/01/01"); ("datei", VStr "1403/01/08")]
           [("datedeliver", VStr "1403/01/10")]).
  - reflexivity.
  - apply (bool_decide_unpack _). vm_compute. reflexivity.
Defined.

(** ** convert_to_jalali *)

Lemma length_split (sep : ascii) (s : string) :
  length (Py.split sep s) = S (count_char sep s).
Proof.
  induction s as [|a s IH]; [done|]. simpl.
  destruct (decide (a = sep)) as [?|?]; simpl; [by rewrite IH|].
  destruct (Py.split sep s) as [|t ts]; simpl in *; [done|]. exact IH.
Qed.

(** X3: a timestamp that does not hold exactly one 'T' cannot be unpacked
    into a date and a time: [convert_to_jalali] raises [ValueError]. *)
Theorem convert_to_jalali_needs_one_T (date_string : string) :
  count_char "T" date_string ≠ 1%nat →
  convert_to_jalali (Some date_string) = Raise ValueError.
Proof.
  intros H. unfold convert_to_jalali.
  pose proof (length_split "T" date_string) as Hl.
  destruct (Py.split "T" date_string) as [|d [|t [|x l]]]; try done.
  simpl in Hl. congruence.
Qed.

Lemma convert_to_jalali_needs_one_T_witness :
  convert_to_jalali (Some "2024-03-25") = Raise ValueError
  ∧ convert_to_jalali (Some "2024-03-25T10:00:00T") = Raise ValueError.
Proof.
  split.
  - apply (convert_to_jalali_needs_one_T "2024-03-25"). vm_compute. lia.
  - apply (convert_to_jalali_needs_one_T "2024-03-25T10:00:00T"). vm_compute. lia.
Defined.

(** ** fetch_page with any ceiling of attempts *)

Lemma attempts_after_transient TIMEOUT get max_retries (k remaining attempt : nat) :
  (k ≤ remaining)%nat →
  (attempt + k < max_retries)%nat →
  (∀ i, (i < k)%nat →
        transient (get (attempt + i)%nat (TIMEOUT + 5 * Z.of_nat (attempt + i)))) →
  attempts TIMEOUT get max_retries remaining attempt
  = ((attempts TIMEOUT get max_retries (remaining - k) (attempt + k)).1,
     ((λ i, TIMEOUT + 5 * Z.of_nat i) <$> seq attempt k)
     ++ (attempts TIMEOUT get max_retries (remaining - k) (attempt + k)).2).
Proof.
  revert remaining attempt. induction k as [|k IH]; intros remaining attempt Hk Hm Ht.
  - rewrite Nat.sub_0_r, Nat.add_0_r. simpl. by destruct (attempts _ _ _ _ _).
  - destruct remaining as [|remaining]; [lia|].
    pose proof (Ht 0%nat ltac:(lia)) as H0. rewrite Nat.add_0_r in H0.
    assert (attempts TIMEOUT get max_retries (S remaining) attempt
            = ((attempts TIMEOUT get max_retries remaining (S attempt)).1,
               (TIMEOUT + 5 * Z.of_nat attempt)
               :: (attempts TIMEOUT get max_retries remaining (S attempt)).2)) as ->.
    { simpl. destruct H0 as [-> | ->].
      all: rewrite decide_True by lia.
      all: by destruct (attempts _ _ _ remaining (S attempt)). }
    rewrite (IH remaining (S attempt)); [|lia|lia|].
    + replace (attempt + S k)%nat with (S attempt + k)%nat by lia. reflexivity.
    + intros i Hi. replace (S attempt + i)%nat with (attempt + S i)%nat by lia.
      apply Ht. lia.
Qed.

(** X4: whatever the ceiling [max_retries], after [k] failures by timeout
    or connection error the attempt number [k] is made with the timeout
    [TIMEOUT + 5 * k]; a page ends the call with that page, an HTTP error
    or any other exception ends it with the empty list without a further
    attempt, and a timeout or connection error ends it with the empty list
    when it was the last attempt allowed.  With a ceiling of zero no
    attempt is made and the call returns [None]. *)
Theorem fetch_page_after_failures TIMEOUT get (max_retries k : nat) :
  fetch_page TIMEOUT get 0 = (None, [])
  ∧ ((k < max_retries)%nat →
     (∀ i, (i < k)%nat → transient (get i (TIMEOUT + 5 * Z.of_nat i))) →
     match get k (TIMEOUT + 5 * Z.of_nat k) with
     | Json orders =>
         fetch_page TIMEOUT get max_retries
         = (Some orders, (λ i, TIMEOUT + 5 * Z.of_nat i) <$> seq 0 (S k))
     | Timeout | ConnectionError =>
         S k = max_retries →
         fetch_page TIMEOUT get max_retries
         = (Some [], (λ i, TIMEOUT + 5 * Z.of_nat i) <$> seq 0 (S k))
     | HTTPError | RequestException | OtherException =>
         fetch_page TIMEOUT get max_retries
         = (Some [], (λ i, TIMEOUT + 5 * Z.of_nat i) <$> seq 0 (S k))
     end).
Proof.
  split; [done|]. intros Hk Ht. unfold fetch_page.
  rewrite (attempts_after_transient TIMEOUT get max_retries k max_retries 0) by (done || lia).
  rewrite seq_S, fmap_app. simpl.
  destruct (max_retries - k)%nat as [|remaining] eqn:E; [lia|]. simpl.
  destruct (get k _); simpl; try done.
  all: intros <-; by rewrite decide_False by lia.
Qed.

Lemma fetch_page_after_failures_witness :
  fetch_page 10 http_error_at_once 3 = (Some [], [10]).
Proof.
  refine (proj2 (fetch_page_after_failures 10 http_error_at_once 3 0) _ _).
  - lia.
  - intros i Hi. lia.
Defined.

(** ** The sort of the batch *)

Lemma insert_by_id_elem_of (o x : order) (sorted : list order) :
  x ∈ insert_by_id o sorted ↔ x = o ∨ x ∈ sorted.
Proof. by rewrite insert_by_id_perm, elem_of_cons. Qed.

Lemma insert_by_id_sorted (o : order) (sorted : list order) :
  StronglySorted (λ a b, order_id a ≤ order_id b) sorted →
  StronglySorted (λ a b, order_id a ≤ order_id b) (insert_by_id o sorted).
Proof.
  induction 1 as [|o' l Hl IH Ho']; simpl.
  - repeat constructor.
  - destruct (order_id o' <=? order_id o) eqn:E.
    + constructor; [done|]. apply Forall_forall. intros x [->|Hx]%insert_by_id_elem_of; [lia|].
      by eapply Forall_forall in Ho'.
    + constructor; [by constructor|]. constructor; [lia|].
      eapply Forall_impl; [exact Ho'|]. simpl. intros x Hx. lia.
Qed.

Lemma filter_none {A} (P : A → Prop) `{∀ x, Decision (P x)} (l : list A) :
  Forall (λ x, ¬ P x) l → filter P l = [].
Proof.
  induction 1 as [|x l Hx Hl IH]; [done|]. by rewrite filter_cons_False.
Qed.

Lemma filter_insert_by_id (i : Z) (o : order) (sorted : list order) :
  StronglySorted (λ a b, order_id a ≤ order_id b) sorted →
  filter (λ x, order_id x = i) (insert_by_id o sorted)
  = filter (λ x, order_id x = i) sorted ++ filter (λ x, order_id x = i) [o].
Proof.
  induction 1 as [|o' l Hl IH Ho']; simpl; [done|].
  destruct (order_id o' <=? order_id o) eqn:E.
  - rewrite !(filter_cons _ o'), IH. by destruct (decide _).
  - rewrite (filter_cons _ o), (filter_cons _ o), filter_nil.
    destruct (decide (order_id o = i)) as [Hi|?]; [|by rewrite app_nil_r].
    assert (filter (λ x, order_id x = i) (o' :: l) = []) as ->; [|done].
    apply filter_none. apply Forall_cons. split; [lia|].
    eapply Forall_impl; [exact Ho'|]. simpl. intros x Hx. lia.
Qed.

Lemma sort_by_id_sorted (orders : list order) :
  StronglySorted (λ a b, order_id a ≤ order_id b) (sort_by_id orders).
Proof.
  unfold sort_by_id.
  assert (∀ acc, StronglySorted (λ a b, order_id a ≤ order_id b) acc →
                 StronglySorted (λ a b, order_id a ≤ order_id b)
                   (foldl (λ sorted o, insert_by_id o sorted) acc orders)) as H.
  { induction orders as [|o orders IH]; intros acc Hacc; [done|].
    simpl. apply IH. by apply insert_by_id_sorted. }
  apply H. constructor.
Qed.

Lemma sort_by_id_stable (i : Z) (orders : list order) :
  filter (λ x, order_id x = i) (sort_by_id orders) = filter (λ x, order_id x = i) orders.
Proof.
  unfold sort_by_id.
  assert (∀ acc, StronglySorted (λ a b, order_id a ≤ order_id b) acc →
                 filter (λ x, order_id x = i) (foldl (λ sorted o, insert_by_id o sorted) acc orders)
                 = filter (λ x, order_id x = i) acc ++ filter (λ x, order_id x = i) orders) as H.
  { induction orders as [|o orders IH]; intros acc Hacc; simpl.
    - by rewrite filter_nil, app_nil_r.
    - rewrite IH by by apply insert_by_id_sorted.
      rewrite filter_insert_by_id by done. rewrite <- app_assoc. f_equal.
      by rewrite (filter_cons _ o orders), (filter_cons _ o []), filter_nil; destruct (decide _). }
  rewrite H by constructor. done.
Qed.

(** X5: the batch the main program hands to [write_to_excel] is in
    ascending order of the order number, and the sort is stable: the orders
    with one number stand in the order in which they were fetched. *)
Theorem main_orders_sorted_and_stable (all_orders : list order) :
  StronglySorted (λ a b, order_id a ≤ order_id b) (main_orders all_orders)
  ∧ ∀ i, filter (λ x, order_id x = i) (main_orders all_orders)
         = filter (λ x, order_id x = i) (List.filter not_cancelled_or_pending all_orders).
Proof.
  split; [apply sort_by_id_sorted|]. intros i. apply sort_by_id_stable.
Qed.

(** ** fetch_orders *)

Lemma fetch_orders_concat TIMEOUT get (completed : list nat) :
  fetch_orders TIMEOUT get completed
  = completed ≫= λ page, default [] (fetch_page TIMEOUT (get page) 3).1.
Proof.
  unfold fetch_orders.
  assert (∀ acc, foldl (λ all_orders page, extend all_orders (fetch_page TIMEOUT (get page) 3).1)
                   acc completed
                 = acc ++ (completed ≫= λ page, default [] (fetch_page TIMEOUT (get page) 3).1))
    as H.
  { induction completed as [|p completed IH]; intros acc; simpl.
    - by rewrite app_nil_r.
    - rewrite IH. rewrite app_assoc. f_equal.
      destruct (fetch_page TIMEOUT (get p) 3).1 as [[|o l]|]; simpl; by rewrite ?app_nil_r. }
  apply (H []).
Qed.

Lemma NoDup_fmap_eq {A B} (f : A → B) (l : list A) (x y : A) :
  NoDup (f <$> l) → x ∈ l → y ∈ l → f x = f y → x = y.
Proof.
  induction l as [|a l IH]; [by intros _ ?%elem_of_nil|].
  simpl. intros [Ha Hl]%NoDup_cons [->|Hx]%elem_of_cons [->|Hy]%elem_of_cons Hf; [done| | |by apply IH].
  - destruct Ha. rewrite Hf. apply list_elem_of_fmap. by exists y.
  - destruct Ha. rewrite <- Hf. apply list_elem_of_fmap. by exists x.
Qed.

Lemma sorted_batch_unique (l1 l2 : list order) :
  NoDup (order_id <$> l1) →
  StronglySorted (λ a b, order_id a ≤ order_id b) l1 →
  StronglySorted (λ a b, order_id a ≤ order_id b) l2 →
  l1 ≡ₚ l2 → l1 = l2.
Proof.
  intros Hnd H1 H2 Hp. apply (StronglySorted_unique_strong (λ a b, order_id a ≤ order_id b));
    [|done..].
  intros x1 x2 Hx1 Hx2 Hle Hge. apply (NoDup_fmap_eq order_id l1); [done|done| |lia].
  by rewrite Hp.
Qed.

Lemma List_filter_sublist {A} (f : A → bool) (l : list A) : List.filter f l `sublist_of` l.
Proof.
  induction l as [|x l IH]; simpl; [done|].
  destruct (f x); by constructor.
Qed.

Lemma List_filter_Permutation {A} (f : A → bool) (l l' : list A) :
  l ≡ₚ l' → List.filter f l ≡ₚ List.filter f l'.
Proof.
  induction 1 as [|x l l' _ IH|x y l|l l' l'' _ IH _ IH']; simpl.
  - done.
  - destruct (f x); by rewrite IH.
  - destruct (f x), (f y); try done. apply perm_swap.
  - by rewrite IH.
Qed.

(** X6: the batch does not depend on the order in which the ten page
    requests complete: the orders collected are the same up to their
    order, and when no order number occurs twice, the sorted batch handed
    to [write_to_excel] is the same list. *)
Theorem batch_independent_of_completion TIMEOUT get (completed completed' : list nat) :
  completed ≡ₚ submitted_pages →
  completed' ≡ₚ submitted_pages →
  fetch_orders TIMEOUT get completed ≡ₚ fetch_orders TIMEOUT get completed'
  ∧ (NoDup (order_id <$> fetch_orders TIMEOUT get submitted_pages) →
     main_orders (fetch_orders TIMEOUT get completed)
     = main_orders (fetch_orders TIMEOUT get completed')).
Proof.
  intros Hc Hc'.
  assert (∀ l, l ≡ₚ submitted_pages →
               fetch_orders TIMEOUT get l ≡ₚ fetch_orders TIMEOUT get submitted_pages) as Hperm.
  { intros l Hl. rewrite !fetch_orders_concat. by rewrite Hl. }
  split; [by rewrite (Hperm completed), (Hperm completed')|].
  intros Hnd. apply sorted_batch_unique.
  - unfold main_orders. rewrite sort_by_id_perm.
    apply (sublist_NoDup _ (order_id <$> fetch_orders TIMEOUT get completed)).
    + by rewrite (Hperm completed Hc).
    + apply fmap_sublist, List_filter_sublist.
  - apply sort_by_id_sorted.
  - apply sort_by_id_sorted.
  - unfold main_orders. rewrite !sort_by_id_perm. apply List_filter_Permutation.
    by rewrite (Hperm completed), (Hperm completed').
Qed.


Lemma batch_independent_of_completion_witness :
  main_orders (fetch_orders 10 two_pages (reverse submitted_pages))
  = main_orders (fetch_orders 10 two_pages submitted_pages).
Proof.
  refine (proj2 (batch_independent_of_completion 10 two_pages
                   (reverse submitted_pages) submitted_pages _ _) _).
  - apply (bool_decide_unpack _). vm_compute. reflexivity.
  - apply (bool_decide_unpack _). vm_compute. reflexivity.
  - apply (bool_decide_unpack _). vm_compute. reflexivity.
Defined.

(** * Further properties of the ledger *)

(** X7: the index built before the batch maps a value of the identifier
    column, other than [None], to the last row from row 2 on that holds
    it; a value that stands in row 1 only, or in no row, is not a key. *)
Theorem index_holds_last_row lang (s : list (list value)) (k : value) (r : nat) :
  existing_order_ids lang s !! k = Some r
  ↔ k ≠ VNone
    ∧ (2 ≤ r ≤ Sheet.max_row s)%nat
    ∧ Sheet.cell_value s r (column lang "order_id") = k
    ∧ ∀ r', (r < r' ≤ Sheet.max_row s)%nat → Sheet.cell_value s r' (column lang "order_id") ≠ k.
Proof. apply existing_order_ids_Some. Qed.

(** ** The row of an order and the keys of the headers *)

(** X8: the row [create_order_row] returns has one cell for each key of
    [COLUMN_HEADERS], and the cell under each key holds the field of that
    name: the total and the discount are the integers of the order times
    10, the product columns and the columns filled by hand are empty
    strings. *)
Theorem create_order_row_fills_columns lang (o : order) (order_row : list value) :
  create_order_row lang o = Ok order_row →
  length order_row = length (COLUMN_HEADERS lang)
  ∧ Sheet.cell_of_row order_row (column lang "order_id") = VInt (order_id o)
  ∧ Sheet.cell_of_row order_row (column lang "status") = status_label lang (order_status o)
  ∧ Sheet.cell_of_row order_row (column lang "customer_id") = VInt (customer_id o)
  ∧ Sheet.cell_of_row order_row (column lang "billing_name")
    = VStr (billing_first_name o +:+ " " +:+ billing_last_name o)
  ∧ Sheet.cell_of_row order_row (column lang "phone") = VStr (billing_phone o)
  ∧ Sheet.cell_of_row order_row (column lang "email") = VStr (billing_email o)
  ∧ Sheet.cell_of_row order_row (column lang "address")
    = VStr (to_english_digits (shipping_address_1 o))
  ∧ Sheet.cell_of_row order_row (column lang "postcode") = VStr (shipping_postcode o)
  ∧ (∃ total discount,
       Py.int (order_total o) = Ok total
       ∧ Py.int (discount_total o) = Ok discount
       ∧ Sheet.cell_of_row order_row (column lang "total") = VInt (total * 10)
       ∧ Sheet.cell_of_row order_row (column lang "discount") = VInt (discount * 10))
  ∧ Forall (λ name, Sheet.cell_of_row order_row (column lang name) = VStr "")
      ["product_sku"; "item_name"; "quantity"; "item_total"; "sepidar_id";
       "com_postal_payment"; "com_postage"]
  ∧ Sheet.cell_of_row order_row (column lang "datei") = find_meta_value o "datei"
  ∧ Sheet.cell_of_row order_row (column lang "tracking_code") = find_meta_value o "marsule"
  ∧ Sheet.cell_of_row order_row (column lang "delivery_date") = find_meta_value o "datedeliver".
Proof.
  unfold create_order_row.
  intros (date_part & _ & H)%bind_Ok.
  apply bind_Ok in H as (birthday & _ & H).
  apply bind_Ok in H as (total & Htotal & H).
  apply bind_Ok in H as (discount & Hdiscount & [= <-]).
  split; [by destruct lang|].
  repeat (split; [by destruct lang|]).
  split.
  { exists total, discount. repeat (split; [done || by destruct lang|]). by destruct lang. }
  split; [|by destruct lang].
  repeat (apply Forall_cons; split; [by destruct lang|]). apply Forall_nil. done.
Qed.

Lemma create_order_row_fills_columns_witness :
  ∃ order_row,
    create_order_row En order_101 = Ok order_row
    ∧ length order_row = 25%nat
    ∧ Sheet.cell_of_row order_row (column En "order_id") = VInt 101
    ∧ Sheet.cell_of_row order_row (column En "status") = VStr "Processing".
Proof.
  destruct (create_order_row En order_101) as [order_row|e] eqn:E;
    [|vm_compute in E; discriminate].
  exists order_row. split; [reflexivity|].
  destruct (create_order_row_fills_columns En order_101 order_row E) as (H1 & H2 & H3 & _).
  split; [exact H1|]. split; [exact H2|exact H3].
Defined.

(** ** The update of a row *)

Lemma if_set_cell_at {P : Prop} (d : {P} + {¬ P}) (s : list (list value))
    (row col : nat) (v : value) :
  (1 ≤ row)%nat → (1 ≤ col)%nat →
  (¬ P → Sheet.cell_value s row col = v) →
  Sheet.cell_value (if d then Sheet.set_cell s row col v else s) row col = v.
Proof.
  intros Hr Hc Hv. destruct d; [|by apply Hv].
  rewrite SheetFacts.cell_value_set_cell. by rewrite decide_True by lia.
Qed.

Lemma update_existing_order_cells lang (s : list (list value)) (row_index : nat) (o : order) :
  (1 ≤ row_index)%nat →
  Sheet.cell_value (update_existing_order lang s row_index o) row_index (column lang "status")
  = status_label lang (order_status o)
  ∧ Sheet.cell_value (update_existing_order lang s row_index o) row_index (column lang "datei")
    = find_meta_value o "datei"
  ∧ Sheet.cell_value (update_existing_order lang s row_index o) row_index
      (column lang "tracking_code")
    = find_meta_value o "marsule"
  ∧ Sheet.cell_value (update_existing_order lang s row_index o) row_index
      (column lang "delivery_date")
    = find_meta_value o "datedeliver".
Proof.
  intros Hr.
  destruct (columns_differ lang) as (_ & C2 & _ & C21 & C22 & _ & _ & C25).
  assert (1 ≤ column lang "status")%nat by lia.
  assert (1 ≤ column lang "datei")%nat by lia.
  assert (1 ≤ column lang "tracking_code")%nat by lia.
  assert (1 ≤ column lang "delivery_date")%nat by lia.
  assert (column lang "datei" ≠ column lang "status") by lia.
  assert (column lang "tracking_code" ≠ column lang "status") by lia.
  assert (column lang "delivery_date" ≠ column lang "status") by lia.
  assert (column lang "tracking_code" ≠ column lang "datei") by lia.
  assert (column lang "delivery_date" ≠ column lang "datei") by lia.
  assert (column lang "delivery_date" ≠ column lang "tracking_code") by lia.
  clear C2 C21 C22 C25.
  unfold update_existing_order. cbv zeta.
  split; [|split; [|split]].
  - rewrite !if_set_cell_frame by (by intros [_ ?]).
    apply if_set_cell_at; [done..|].
    intros Heq%dec_stable. symmetry. by apply get_key_by_value_status_label.
  - rewrite 2!if_set_cell_frame by (by intros [_ ?]).
    apply if_set_cell_at; [done..|]. by intros Heq%dec_stable.
  - rewrite if_set_cell_frame by (by intros [_ ?]).
    apply if_set_cell_at; [done..|]. by intros Heq%dec_stable.
  - apply if_set_cell_at; [done..|]. by intros Heq%dec_stable.
Qed.

(** X9: after the update of the row of an order, the status, dispatch date,
    tracking code and delivery date cells of the row hold what the order
    says, whatever they held before; a second update with the same order
    changes nothing. *)
Theorem update_brings_row_up_to_date lang (s : list (list value)) (k : nat) (o : order)
    (rw : list value) :
  update_existing_order lang s (S k) o !! k = Some rw →
  up_to_date lang o rw
  ∧ ∀ r c,
      Sheet.cell_value (update_existing_order lang (update_existing_order lang s (S k) o) (S k) o) r c
      = Sheet.cell_value (update_existing_order lang s (S k) o) r c.
Proof.
  intros Hrw.
  destruct (update_existing_order_cells lang s (S k) o ltac:(lia)) as (G1 & G2 & G3 & G4).
  pose proof G1 as H1. pose proof G2 as H2. pose proof G3 as H3. pose proof G4 as H4.
  rewrite !(cell_value_lookup _ k rw) in H1, H2, H3, H4 by done.
  split; [done|]. intros r c.
  destruct (decide (r = S k
                    ∧ (c = column lang "status" ∨ c = column lang "datei"
                       ∨ c = column lang "tracking_code" ∨ c = column lang "delivery_date")))
    as [[-> Hc]|Hn]; [|by apply update_existing_order_frame].
  destruct (update_existing_order_cells lang (update_existing_order lang s (S k) o) (S k) o
              ltac:(lia)) as (H1' & H2' & H3' & H4').
  destruct Hc as [->|[->|[->| ->]]]; congruence.
Qed.

Lemma update_brings_row_up_to_date_witness :
  ∃ rw,
    update_existing_order En (sheet first_turn_on_two_months) 2 order_101_delivered !! 1%nat
    = Some rw
    ∧ Sheet.cell_of_row rw (column En "status") = VStr "Completed"
    ∧ Sheet.cell_of_row rw (column En "tracking_code") = VStr "TR-1".
Proof.
  destruct (update_existing_order En (sheet first_turn_on_two_months) 2 order_101_delivered
              !! 1%nat) as [rw|] eqn:E; [|vm_compute in E; discriminate].
  exists rw. split; [reflexivity|].
  destruct (proj1 (update_brings_row_up_to_date En _ 1 order_101_delivered rw E))
    as (H1 & _ & H3 & _).
  split; [exact H1|exact H3].
Defined.

(** * Opening and closing the ledger *)

Lemma delete_last_row (s : list (list value)) :
  (1 ≤ length s)%nat → Sheet.delete_rows s (Sheet.max_row s) = take (length s - 1) s.
Proof.
  intros H. unfold Sheet.delete_rows. rewrite max_row_length by done.
  rewrite drop_all, app_nil_r. f_equal. lia.
Qed.

Lemma header_row_normal lang :
  Sheet.normal_form (VStr <$> (COLUMN_HEADERS lang).*2) = VStr <$> (COLUMN_HEADERS lang).*2.
Proof. by destruct lang. Qed.

Lemma open_ledger_rows lang (file : option (list (list value))) :
  open_ledger lang file
  = match Sheet.load_workbook file with
    | [] => [VStr <$> (COLUMN_HEADERS lang).*2]
    | s => take (length s - 2) s
    end.
Proof.
  unfold open_ledger. destruct (Sheet.load_workbook file) as [|r1 [|r2 l]].
  - by destruct lang.
  - reflexivity.
  - set (s := r1 :: r2 :: l).
    assert (2 ≤ length s)%nat as Hs by (simpl; lia).
    cbv zeta.
    destruct (decide (Sheet.max_row s = 1%nat)) as [E|_];
      [rewrite max_row_length in E by lia; lia|].
    destruct (decide (1 < Sheet.max_row s)%nat) as [_|E];
      [|rewrite max_row_length in E by lia; lia].
    rewrite (delete_last_row s) by lia.
    rewrite delete_last_row by (rewrite length_take_le; lia).
    rewrite length_take_le by lia. rewrite take_take. f_equal. lia.
Qed.

(** X10: [write_to_excel] opens a file that does not exist, or that holds no
    row, as a sheet with the header row alone; from any other file it
    removes the last two rows, whatever they hold, so that a ledger of one
    or two rows, such as one that holds the header row only, is left
    without any row, the header row included. *)
Theorem open_ledger_removes_two_rows lang (file : option (list (list value))) :
  open_ledger lang file
  = match Sheet.load_workbook file with
    | [] => [VStr <$> (COLUMN_HEADERS lang).*2]
    | [_] | [_; _] => []
    | s => take (length s - 2) s
    end.
Proof. rewrite open_ledger_rows. by destruct (Sheet.load_workbook file) as [|r1 [|r2 [|r3 l]]]. Qed.

(** ** The sum row *)

Lemma filter_ext_elem_of {A} (P1 P2 : A → Prop)
    `{!∀ x, Decision (P1 x), !∀ x, Decision (P2 x)} (l : list A) :
  (∀ x, x ∈ l → P1 x ↔ P2 x) → filter P1 l = filter P2 l.
Proof.
  induction l as [|a l IH]; intros Hiff; [done|].
  rewrite !filter_cons, IH by (intros x Hx; apply Hiff; by right).
  destruct (decide (P1 a)) as [H1|H1], (decide (P2 a)) as [H2|H2]; try done.
  - destruct H2. by apply (Hiff a); [left|].
  - destruct H1. by apply (Hiff a); [left|].
Qed.

Lemma count_integer_rows_agree (s s1 : list (list value)) (column_name : string)
    (start_row stop_row : nat) :
  default [] (s !! 0%nat) = default [] (s1 !! 0%nat) →
  (∀ r c, (start_row ≤ r ≤ stop_row)%nat → Sheet.cell_value s r c = Sheet.cell_value s1 r c) →
  count_integer_rows s column_name start_row stop_row
  = count_integer_rows s1 column_name start_row stop_row.
Proof.
  intros Hh Hc. unfold count_integer_rows. rewrite Hh.
  destruct (decide _) as [?|?]; [|done]. f_equal. f_equal.
  apply filter_ext_elem_of. intros r Hr%elem_of_seq. rewrite Hc by lia. done.
Qed.

(** The sum row written below the last row of a sheet with at least one
    row. *)
Lemma add_sum_row_row lang (s : list (list value)) (from_row : nat) (s' : list (list value))
    (i : nat) :
  (1 ≤ length s)%nat →
  add_sum_row lang s from_row (Sheet.max_row s) col_list = Ok (s', i) →
  ∃ (sum_row : list value) (n : nat),
    i = S (length s)
    ∧ s' = s ++ [sum_row]
    ∧ count_integer_rows s (header lang "order_id") from_row (length s) = Ok n
    ∧ Sheet.cell_of_row sum_row (column lang "order_id") = VNone
    ∧ Sheet.cell_of_row sum_row (column lang "address")
      = VStr (text lang "sum_month_orders_row_text")
    ∧ Sheet.cell_of_row sum_row (column lang "postcode") = VInt (Z.of_nat n)
    ∧ Forall (λ name, Sheet.cell_of_row sum_row (column lang name)
                      = VStr (sum_formula (column lang name) from_row (length s)))
        ["total"; "shipping"; "discount"; "sepidar_discount"; "item_total";
         "com_postal_payment"; "com_postage"].
Proof.
  intros Hs. rewrite max_row_length by done. unfold add_sum_row.
  rewrite insert_rows_below by lia. rewrite set_cell_new_row.
  intros (n & Hn & [= <- <-])%bind_Ok.
  rewrite !set_cell_app.
  eexists _, n. split; [done|]. split; [done|]. split.
  { rewrite <- Hn. apply count_integer_rows_agree.
    - rewrite lookup_app_l by lia. done.
    - intros r c Hr. by rewrite cell_value_app_l by lia. }
  destruct lang; repeat (split || apply Forall_cons || apply Forall_nil); reflexivity.
Qed.

(** X11: the sum row that [add_sum_row] writes below the last row holds the
    label of the month sums under the address header, the number of rows
    between [from_row] and the last row whose first cell is an integer
    under the postcode header, and under each of the seven amount headers
    the sum formula of that column from [from_row] to the last row; its
    identifier cell is empty, the rows above it stay as they were, and
    [find_sum_rows] finds it as the last sum row. *)
Theorem sum_row_cells lang (s : list (list value)) (from_row : nat) (s' : list (list value))
    (i : nat) :
  (1 ≤ length s)%nat →
  add_sum_row lang s from_row (Sheet.max_row s) col_list = Ok (s', i) →
  ∃ (sum_row : list value) (n : nat),
    i = S (length s)
    ∧ s' = s ++ [sum_row]
    ∧ count_integer_rows s (header lang "order_id") from_row (length s) = Ok n
    ∧ Sheet.cell_of_row sum_row (column lang "order_id") = VNone
    ∧ Sheet.cell_of_row sum_row (column lang "address")
      = VStr (text lang "sum_month_orders_row_text")
    ∧ Sheet.cell_of_row sum_row (column lang "postcode") = VInt (Z.of_nat n)
    ∧ Forall (λ name, Sheet.cell_of_row sum_row (column lang name)
                      = VStr (sum_formula (column lang name) from_row (length s)))
        ["total"; "shipping"; "discount"; "sepidar_discount"; "item_total";
         "com_postal_payment"; "com_postage"]
    ∧ last (find_sum_rows lang s') = Some i.
Proof.
  intros Hs Hadd.
  destruct (add_sum_row_row lang s from_row s' i Hs Hadd)
    as (sum_row & n & -> & -> & Hn & Hid & Haddr & Hpost & Hsums).
  exists sum_row, n. repeat (split; [done|]).
  unfold find_sum_rows. rewrite max_row_length by (rewrite length_app; simpl; lia).
  rewrite length_app. simpl.
  replace (length s + 1 - 1)%nat with (S (length s - 1)) by lia.
  rewrite seq_S, filter_app.
  replace (2 + (length s - 1))%nat with (S (length s)) by lia.
  rewrite filter_cons_True, filter_nil.
  - by rewrite last_snoc.
  - rewrite (cell_value_lookup _ (length s) sum_row) by (by rewrite list_lookup_middle).
    exact Haddr.
Qed.

Lemma sum_row_cells_witness :
  ∃ s' sum_row,
    add_sum_row En (take 2 ledger_two_months) 2 2 col_list = Ok (s', 3%nat)
    ∧ s' = take 2 ledger_two_months ++ [sum_row]
    ∧ Sheet.cell_of_row sum_row (column En "address") = VStr "Monthly Orders"
    ∧ Sheet.cell_of_row sum_row (column En "postcode") = VInt 1
    ∧ last (find_sum_rows En s') = Some 3%nat.
Proof.
  destruct (add_sum_row En (take 2 ledger_two_months) 2
              (Sheet.max_row (take 2 ledger_two_months)) col_list) as [[s' i]|e] eqn:E;
    [|vm_compute in E; discriminate].
  assert (1 ≤ length (take 2 ledger_two_months))%nat as H1 by (vm_compute; lia).
  destruct (sum_row_cells En _ 2 s' i H1 E)
    as (sum_row & n & Hi & Hs' & Hn & _ & Haddr & Hpost & _ & Hlast).
  assert (i = 3%nat) as -> by (rewrite Hi; reflexivity).
  assert (n = 1%nat) as ->.
  { vm_compute in Hn. by injection Hn as <-. }
  exists s', sum_row. split; [exact E|]. split; [exact Hs'|].
  split; [exact Haddr|]. split; [exact Hpost|exact Hlast].
Defined.

(** ** The end of a run and the start of the next *)

Lemma close_ledger_rows lang (s s' : list (list value)) :
  close_ledger lang s = Ok s' →
  ∃ (sum_row totals_row : list value),
    s' = s ++ [sum_row; totals_row]
    ∧ (2 ≤ length s)%nat
    ∧ Sheet.cell_of_row sum_row (column lang "order_id") = VNone
    ∧ Sheet.cell_of_row sum_row (column lang "address")
      = VStr (text lang "sum_month_orders_row_text")
    ∧ Sheet.cell_of_row totals_row (column lang "order_id") = VStr ""
    ∧ Sheet.cell_of_row totals_row (column lang "address")
      = VStr (text lang "sum_all_orders_row_text").
Proof.
  unfold close_ledger. intros (r & Hr & H)%bind_Ok.
  destruct (last (find_sum_rows lang s)) as [r'|] eqn:Hlast; [|done].
  injection Hr as <-.
  assert (2 ≤ length s)%nat as Hs.
  { apply last_Some_elem_of in Hlast. unfold find_sum_rows in Hlast.
    apply list_elem_of_filter in Hlast as [_ Hin%elem_of_seq].
    unfold Sheet.max_row in Hin. lia. }
  apply bind_Ok in H as ([s1 i] & Hadd & [= <-]).
  apply add_sum_row_row in Hadd as (sum_row & n & _ & -> & _ & Hid & Haddr & _); [|lia].
  unfold append_totals, Sheet.append.
  eexists sum_row, (Sheet.normal_form _). split; [rewrite <- app_assoc; reflexivity|].
  split; [done|]. split; [done|]. split; [done|].
  rewrite !SheetFacts.cell_of_row_normal_form. by destruct lang.
Qed.

Lemma cell_value_load_workbook (s : list (list value)) (r c : nat) :
  Sheet.cell_value (Sheet.load_workbook (Some s)) r c = Sheet.reloaded (Sheet.cell_value s r c).
Proof.
  destruct r as [|k]; [done|]. unfold Sheet.cell_value, Sheet.load_workbook.
  rewrite list_lookup_fmap. destruct (s !! k) as [rw|]; simpl; [|by destruct c].
  rewrite SheetFacts.cell_of_row_normal_form. destruct c as [|j]; [done|]. simpl.
  rewrite list_lookup_fmap. by destruct (rw !! j).
Qed.

Lemma open_ledger_long (lang : language) (s : list (list value)) :
  (1 ≤ length s)%nat →
  open_ledger lang (Some s) = take (length s - 2) (Sheet.load_workbook (Some s)).
Proof.
  intros Hs. rewrite open_ledger_rows.
  assert (length (Sheet.load_workbook (Some s)) = length s) as Hl
    by (unfold Sheet.load_workbook; by rewrite length_fmap).
  destruct (Sheet.load_workbook (Some s)) as [|rw l]; [simpl in Hl; lia|].
  by rewrite <- Hl.
Qed.

(** X12: a run that ends normally adds two rows below the rows the loop
    left: a sum row, with the label of the month sums and no identifier,
    and the row of totals, with the label of all sums; these are the two
    rows the next run removes when it opens the file, so that the next run
    starts from the rows the loop of this run left. *)
Theorem close_then_open lang (s s' : list (list value)) :
  close_ledger lang s = Ok s' →
  ∃ (sum_row totals_row : list value),
    s' = s ++ [sum_row; totals_row]
    ∧ Sheet.cell_of_row sum_row (column lang "order_id") = VNone
    ∧ Sheet.cell_of_row sum_row (column lang "address")
      = VStr (text lang "sum_month_orders_row_text")
    ∧ Sheet.cell_of_row totals_row (column lang "address")
      = VStr (text lang "sum_all_orders_row_text")
    ∧ open_ledger lang (Some s') = Sheet.load_workbook (Some s).
Proof.
  intros (sum_row & totals_row & -> & Hs & Hid & Haddr & _ & Htot)%close_ledger_rows.
  exists sum_row, totals_row. repeat (split; [done|]).
  rewrite open_ledger_long by (rewrite length_app; simpl; lia).
  unfold Sheet.load_workbook. rewrite fmap_app, length_app. simpl.
  apply take_app_length'. rewrite length_fmap. lia.
Qed.

Lemma close_then_open_witness :
  ∃ s',
    close_ledger En (take 4 ledger_two_months) = Ok s'
    ∧ length s' = 6%nat
    ∧ open_ledger En (Some s') = Sheet.load_workbook (Some (take 4 ledger_two_months)).
Proof.
  destruct (close_ledger En (take 4 ledger_two_months)) as [s'|e] eqn:E;
    [|vm_compute in E; discriminate].
  exists s'. split; [reflexivity|].
  destruct (close_then_open En _ s' E) as (sum_row & totals_row & Hs' & _ & _ & _ & Hopen).
  split; [|exact Hopen]. rewrite Hs'. reflexivity.
Defined.

(** ** What a run keeps and what it writes *)

Lemma cell_value_take (s : list (list value)) (n r c : nat) :
  (r ≤ n)%nat → Sheet.cell_value (take n s) r c = Sheet.cell_value s r c.
Proof.
  intros H. destruct r as [|k]; [done|]. unfold Sheet.cell_value.
  by rewrite lookup_take_lt by lia.
Qed.

Lemma write_to_excel_keeps lang (file : option (list (list value))) (orders : list order)
    (s' : list (list value)) :
  write_to_excel lang file orders = Ok s' →
  ∀ r c,
    (r ≤ length (open_ledger lang file))%nat →
    ¬ (c = column lang "status" ∨ c = column lang "datei"
       ∨ c = column lang "tracking_code" ∨ c = column lang "delivery_date") →
    Sheet.cell_value s' r c = Sheet.cell_value (open_ledger lang file) r c.
Proof.
  unfold write_to_excel. intros (st & Hloop & Hclose)%bind_Ok r c Hr Hc.
  apply process_orders_keeps in Hloop as [Hlen Hkeep]. simpl in Hlen, Hkeep.
  apply close_ledger_rows in Hclose as (sum_row & totals_row & -> & _).
  rewrite cell_value_app_l by lia. by apply Hkeep.
Qed.

(** X13: a run on a ledger of at least three rows leaves, in every row but
    the last two, every cell outside the status, dispatch date, tracking
    code and delivery date columns as the file had it (an empty string is
    read back as an empty cell): what was entered by hand in the other
    columns is kept, whatever the batch. *)
Theorem run_keeps_other_columns lang (s : list (list value)) (orders : list order)
    (s' : list (list value)) :
  (3 ≤ length s)%nat →
  write_to_excel lang (Some s) orders = Ok s' →
  ∀ r c,
    (r ≤ length s - 2)%nat →
    ¬ (c = column lang "status" ∨ c = column lang "datei"
       ∨ c = column lang "tracking_code" ∨ c = column lang "delivery_date") →
    Sheet.cell_value s' r c = Sheet.reloaded (Sheet.cell_value s r c).
Proof.
  intros Hs Hrun r c Hr Hc.
  assert (length (Sheet.load_workbook (Some s)) = length s) as Hl
    by (unfold Sheet.load_workbook; by rewrite length_fmap).
  rewrite (write_to_excel_keeps lang (Some s) orders s' Hrun r c); [|
    rewrite open_ledger_long by lia; rewrite length_take_le by lia; lia|done].
  rewrite open_ledger_long by lia. rewrite cell_value_take by lia.
  apply cell_value_load_workbook.
Qed.

Lemma run_keeps_other_columns_witness :
  ∃ s',
    write_to_excel En (Some ledger_two_months) [order_101_delivered; order_102; order_103] = Ok s'
    ∧ Sheet.cell_value s' 2 (column En "total") = VInt 10000
    ∧ Sheet.cell_value s' 2 (column En "status") = VStr "Completed".
Proof.
  destruct (write_to_excel En (Some ledger_two_months)
              [order_101_delivered; order_102; order_103]) as [s'|e] eqn:E;
    [|vm_compute in E; discriminate].
  exists s'. split; [reflexivity|]. split.
  - rewrite (run_keeps_other_columns En ledger_two_months _ s' ltac:(vm_compute; lia) E
               2 (column En "total")).
    + reflexivity.
    + vm_compute. lia.
    + vm_compute. intros [H|[H|[H|H]]]; discriminate.
  - vm_compute in E. injection E as <-. reflexivity.
Defined.

Lemma insert_row_holds_id lang (existing : gmap value nat) (st : loop_state) (o : order)
    (st' : loop_state) :
  existing !! VInt (order_id o) = None →
  process_order lang existing st o = Ok st' →
  ∃ row_index,
    (length (sheet st) < row_index ≤ length (sheet st'))%nat
    ∧ Sheet.cell_value (sheet st') row_index (column lang "order_id") = VInt (order_id o).
Proof.
  intros Hnew Hst. unfold process_order in Hst.
  apply bind_Ok in Hst as ([j t] & _ & Hst). rewrite Hnew in Hst.
  apply insert_new_order_rows in Hst as (_ & s1 & order_row & below & Hp & Hrow & ->).
  simpl in Hp. apply prefix_length in Hp.
  destruct (columns_differ lang) as (C1 & _ & _ & _ & _ & _ & C24 & _).
  exists (S (length s1)). split.
  - rewrite SheetFacts.length_set_cell, length_app. simpl. lia.
  - rewrite SheetFacts.cell_value_set_cell, C1, C24.
    rewrite decide_False by lia.
    rewrite (cell_value_lookup _ (length s1) (Sheet.normal_form order_row))
      by (by rewrite list_lookup_middle).
    rewrite SheetFacts.cell_of_row_normal_form. by apply (create_order_row_id lang).
Qed.

Lemma not_mutable_order_id lang :
  ¬ (column lang "order_id" = column lang "status"
     ∨ column lang "order_id" = column lang "datei"
     ∨ column lang "order_id" = column lang "tracking_code"
     ∨ column lang "order_id" = column lang "delivery_date").
Proof.
  destruct (columns_differ lang) as (C1 & C2 & _ & C21 & C22 & _ & _ & C25).
  rewrite C1, C2, C21, C22, C25. lia.
Qed.

Lemma process_orders_rows lang (s : list (list value)) (orders : list order)
    (st st' : loop_state) :
  process_orders lang (existing_order_ids lang s) st orders = Ok st' →
  (length s ≤ length (sheet st))%nat →
  (∀ r, (r ≤ length s)%nat →
        Sheet.cell_value (sheet st) r (column lang "order_id")
        = Sheet.cell_value s r (column lang "order_id")) →
  ∀ o, o ∈ orders →
       ∃ r, (1 ≤ r ≤ length (sheet st'))%nat
            ∧ Sheet.cell_value (sheet st') r (column lang "order_id") = VInt (order_id o).
Proof.
  revert st. induction orders as [|o' orders IH]; intros st Hloop Hlen Hcol o Hin.
  { by apply elem_of_nil in Hin. }
  simpl in Hloop. apply bind_Ok in Hloop as (st1 & H1 & Hrest).
  pose proof (process_order_keeps _ _ _ _ _ H1) as [Hlen1 Hkeep1].
  pose proof (process_orders_keeps _ _ _ _ _ Hrest) as [Hlen2 Hkeep2].
  apply elem_of_cons in Hin as [->|Hin].
  - destruct (existing_order_ids lang s !! VInt (order_id o')) as [row_index|] eqn:Hidx.
    + apply existing_order_ids_Some in Hidx as (_ & Hr & Hcell & _).
      pose proof (cell_value_VInt_within _ _ _ _ Hcell) as Hin.
      exists row_index. split; [lia|].
      rewrite Hkeep2 by (lia || apply not_mutable_order_id).
      rewrite Hkeep1 by (lia || apply not_mutable_order_id).
      by rewrite Hcol by lia.
    + destruct (insert_row_holds_id _ _ _ _ _ Hidx H1) as (row_index & Hr & Hcell).
      exists row_index. split; [lia|].
      by rewrite Hkeep2 by (lia || apply not_mutable_order_id).
  - apply (IH st1 Hrest); [lia| |done].
    intros r Hr. rewrite Hkeep1 by (lia || apply not_mutable_order_id). by apply Hcol.
Qed.

(** X14: after a run that ends normally, every order of the batch has a row:
    its identifier stands in the identifier column of some row of the
    ledger that is saved. *)
Theorem every_order_has_a_row lang (file : option (list (list value))) (orders : list order)
    (s' : list (list value)) (o : order) :
  write_to_excel lang file orders = Ok s' →
  o ∈ orders →
  ∃ r, (1 ≤ r ≤ length s')%nat
       ∧ Sheet.cell_value s' r (column lang "order_id") = VInt (order_id o).
Proof.
  unfold write_to_excel. intros (st & Hloop & Hclose)%bind_Ok Hin.
  destruct (process_orders_rows lang _ _ _ _ Hloop ltac:(done) ltac:(done) o Hin)
    as (r & Hr & Hcell).
  apply close_ledger_rows in Hclose as (sum_row & totals_row & -> & _).
  exists r. split; [rewrite length_app; lia|].
  by rewrite cell_value_app_l by lia.
Qed.

Lemma every_order_has_a_row_witness :
  ∃ s' r,
    write_to_excel En (Some ledger_two_months) [order_101_delivered; order_102; order_103] = Ok s'
    ∧ (1 ≤ r ≤ length s')%nat
    ∧ Sheet.cell_value s' r (column En "order_id") = VInt 103.
Proof.
  destruct (write_to_excel En (Some ledger_two_months)
              [order_101_delivered; order_102; order_103]) as [s'|e] eqn:E;
    [|vm_compute in E; discriminate].
  destruct (every_order_has_a_row En _ _ s' order_103 E) as (r & Hr & Hcell).
  - rewrite !elem_of_cons. right. right. by left.
  - exists s', r. split; [reflexivity|]. split; [exact Hr|exact Hcell].
Defined.

(** ** The digits of addresses and birthdays *)

Lemma translate_persian_cons (a : ascii) (s : string) :
  nat_of_ascii a ≠ 219%nat →
  Py.translate_persian (String a s) = String a (Py.translate_persian s).
Proof.
  intros Ha. destruct s as [|b r]; [done|].
  change (Py.translate_persian (String a (String b r)))
    with (if (nat_of_ascii a =? 219)%nat && (176 <=? nat_of_ascii b)%nat
             && (nat_of_ascii b <=? 185)%nat
          then String (ascii_of_nat (nat_of_ascii b - 128)) (Py.translate_persian r)
          else String a (Py.translate_persian (String b r))).
  apply Nat.eqb_neq in Ha. rewrite Ha. reflexivity.
Qed.

Lemma translate_arabic_cons (a : ascii) (s : string) :
  nat_of_ascii a ≠ 217%nat →
  Py.translate_arabic (String a s) = String a (Py.translate_arabic s).
Proof.
  intros Ha. destruct s as [|b r]; [done|].
  change (Py.translate_arabic (String a (String b r)))
    with (if (nat_of_ascii a =? 217)%nat && (160 <=? nat_of_ascii b)%nat
             && (nat_of_ascii b <=? 169)%nat
          then String (ascii_of_nat (nat_of_ascii b - 112)) (Py.translate_arabic r)
          else String a (Py.translate_arabic (String b r))).
  apply Nat.eqb_neq in Ha. rewrite Ha. reflexivity.
Qed.

Lemma translate_persian_digit (n : nat) (s : string) :
  (n < 10)%nat →
  Py.translate_persian (persian_digit n +:+ s) = ascii_digit n +:+ Py.translate_persian s.
Proof.
  intros Hn.
  change (persian_digit n +:+ s)
    with (String (ascii_of_nat 219) (String (ascii_of_nat (176 + n)) s)).
  change (ascii_digit n +:+ Py.translate_persian s)
    with (String (ascii_of_nat (48 + n)) (Py.translate_persian s)).
  change (Py.translate_persian (String (ascii_of_nat 219) (String (ascii_of_nat (176 + n)) s)))
    with (if (nat_of_ascii (ascii_of_nat 219) =? 219)%nat
             && (176 <=? nat_of_ascii (ascii_of_nat (176 + n)))%nat
             && (nat_of_ascii (ascii_of_nat (176 + n)) <=? 185)%nat
          then String (ascii_of_nat (nat_of_ascii (ascii_of_nat (176 + n)) - 128))
                 (Py.translate_persian s)
          else String (ascii_of_nat 219)
                 (Py.translate_persian (String (ascii_of_nat (176 + n)) s))).
  rewrite !nat_ascii_embedding by lia.
  rewrite Nat.eqb_refl, (leb_correct 176) by lia. rewrite leb_correct by lia. simpl andb.
  cbv iota. by replace (176 + n - 128)%nat with (48 + n)%nat by lia.
Qed.

Lemma translate_arabic_digit (n : nat) (s : string) :
  (n < 10)%nat →
  Py.translate_arabic (arabic_digit n +:+ s) = ascii_digit n +:+ Py.translate_arabic s.
Proof.
  intros Hn.
  change (arabic_digit n +:+ s)
    with (String (ascii_of_nat 217) (String (ascii_of_nat (160 + n)) s)).
  change (ascii_digit n +:+ Py.translate_arabic s)
    with (String (ascii_of_nat (48 + n)) (Py.translate_arabic s)).
  change (Py.translate_arabic (String (ascii_of_nat 217) (String (ascii_of_nat (160 + n)) s)))
    with (if (nat_of_ascii (ascii_of_nat 217) =? 217)%nat
             && (160 <=? nat_of_ascii (ascii_of_nat (160 + n)))%nat
             && (nat_of_ascii (ascii_of_nat (160 + n)) <=? 169)%nat
          then String (ascii_of_nat (nat_of_ascii (ascii_of_nat (160 + n)) - 112))
                 (Py.translate_arabic s)
          else String (ascii_of_nat 217)
                 (Py.translate_arabic (String (ascii_of_nat (160 + n)) s))).
  rewrite !nat_ascii_embedding by lia.
  rewrite Nat.eqb_refl, (leb_correct 160) by lia. rewrite leb_correct by lia. simpl andb.
  cbv iota. by replace (160 + n - 112)%nat with (48 + n)%nat by lia.
Qed.

Lemma translate_persian_arabic_digit (n : nat) (s : string) :
  (n < 10)%nat →
  Py.translate_persian (arabic_digit n +:+ s) = arabic_digit n +:+ Py.translate_persian s.
Proof.
  intros Hn.
  change (arabic_digit n +:+ s)
    with (String (ascii_of_nat 217) (String (ascii_of_nat (160 + n)) s)).
  change (arabic_digit n +:+ Py.translate_persian s)
    with (String (ascii_of_nat 217) (String (ascii_of_nat (160 + n)) (Py.translate_persian s))).
  rewrite !translate_persian_cons by (rewrite nat_ascii_embedding by lia; lia). done.
Qed.

Lemma translate_arabic_ascii_digit (n : nat) (s : string) :
  (n < 10)%nat →
  Py.translate_arabic (ascii_digit n +:+ s) = ascii_digit n +:+ Py.translate_arabic s.
Proof.
  intros Hn.
  change (ascii_digit n +:+ s) with (String (ascii_of_nat (48 + n)) s).
  by rewrite translate_arabic_cons by (rewrite nat_ascii_embedding by lia; lia).
Qed.

Lemma to_english_digits_ascii (a : ascii) (s : string) :
  (nat_of_ascii a < 128)%nat →
  to_english_digits (String a s) = String a (to_english_digits s).
Proof.
  intros Ha. unfold to_english_digits.
  rewrite translate_persian_cons by lia. by rewrite translate_arabic_cons by lia.
Qed.

Lemma append_String (a : ascii) (s t : string) : String a s +:+ t = String a (s +:+ t).
Proof. done. Qed.

Lemma append_assoc (s t u : string) : (s +:+ t) +:+ u = s +:+ t +:+ u.
Proof. induction s as [|a s IH]; [done|]. rewrite !append_String. by rewrite IH. Qed.

(** X15: the two translations of [create_order_row] turn a number written
    with Persian or with Arabic digits into the same number in ASCII
    digits, and leave the ASCII characters in front of it as they are;
    what follows the number is translated in the same way. *)
Theorem digits_are_translated (before : string) (ds : list nat) (after : string) :
  ascii_only before →
  Forall (λ d, d < 10)%nat ds →
  to_english_digits (before +:+ spell persian_digit ds +:+ after)
  = before +:+ spell ascii_digit ds +:+ to_english_digits after
  ∧ to_english_digits (before +:+ spell arabic_digit ds +:+ after)
    = before +:+ spell ascii_digit ds +:+ to_english_digits after.
Proof.
  intros Hb Hd. induction before as [|a before IH].
  - clear Hb. change (EmptyString +:+ ?x) with x.
    induction Hd as [|d ds Hd _ IH]; [done|].
    destruct IH as [IH1 IH2]. unfold to_english_digits in *.
    change (spell ?f (d :: ds)) with (f d +:+ spell f ds).
    rewrite !append_assoc.
    split.
    + rewrite translate_persian_digit by done.
      rewrite translate_arabic_ascii_digit by done. by rewrite IH1.
    + rewrite translate_persian_arabic_digit by done.
      rewrite translate_arabic_digit by done. by rewrite IH2.
  - simpl in Hb. apply andb_prop_elim in Hb as [Ha Hb].
    apply Is_true_eq_true, Nat.ltb_lt in Ha.
    destruct (IH Hb) as [IH1 IH2]. rewrite !append_String.
    rewrite !to_english_digits_ascii by done. by rewrite IH1, IH2.
Qed.

Lemma digits_are_translated_witness :
  to_english_digits "Unit ۱۲" = "Unit 12" ∧ to_english_digits "Unit ١٢" = "Unit 12".
Proof.
  refine (digits_are_translated "Unit " [1; 2]%nat "" _ _).
  - reflexivity.
  - repeat constructor.
Defined.

(** ** Amounts with decimals *)

Lemma is_space_not_dot (a : ascii) : Py.is_space a = true → a ≠ "."%char.
Proof. intros H ->. discriminate. Qed.

Lemma is_space2_not_dot (a b : ascii) :
  Py.is_space2 a b = true → a ≠ "."%char ∧ b ≠ "."%char.
Proof.
  unfold Py.is_space2. intros [Ha Hb]%andb_true_iff. apply Nat.eqb_eq in Ha.
  split; intros ->.
  - cbv in Ha. lia.
  - cbv in Hb. discriminate.
Qed.

Lemma is_space3_first (a b c : ascii) :
  Py.is_space3 a b c = true →
  (225 ≤ nat_of_ascii a)%nat ∧ (128 ≤ nat_of_ascii b)%nat ∧ (128 ≤ nat_of_ascii c)%nat.
Proof.
  unfold Py.is_space3. cbv zeta.
  rewrite !orb_true_iff, !andb_true_iff, !orb_true_iff, !andb_true_iff.
  rewrite !Nat.eqb_eq, !Nat.leb_le. lia.
Qed.

Lemma is_space3_not_dot (a b c : ascii) :
  Py.is_space3 a b c = true → a ≠ "."%char ∧ b ≠ "."%char ∧ c ≠ "."%char.
Proof.
  intros (Ha & Hb & Hc)%is_space3_first.
  split; [|split]; intros ->; cbv in Ha, Hb, Hc; lia.
Qed.

Lemma count_dot_cons (a : ascii) (s : string) :
  a ≠ "."%char → count_char "." (String a s) = count_char "." s.
Proof. intros H. simpl. by rewrite decide_False. Qed.

Lemma count_dot_lstrip (s : string) : count_char "." (Py.lstrip s) = count_char "." s.
Proof.
  assert (∀ n s, (String.length s ≤ n)%nat →
                 count_char "." (Py.lstrip s) = count_char "." s) as H; [|by eapply H].
  clear s. induction n as [|n IH]; intros s Hn.
  { by destruct s; [|simpl in Hn; lia]. }
  destruct s as [|a s1]; [done|].
  change (Py.lstrip (String a s1))
    with (if Py.is_space a then Py.lstrip s1
          else match s1 with
               | String b s2 =>
                   if Py.is_space2 a b then Py.lstrip s2
                   else match s2 with
                        | String c s3 =>
                            if Py.is_space3 a b c then Py.lstrip s3 else String a s1
                        | EmptyString => String a s1
                        end
               | EmptyString => String a s1
               end).
  simpl in Hn.
  destruct (Py.is_space a) eqn:E1.
  { rewrite IH by lia. by rewrite count_dot_cons by by apply is_space_not_dot. }
  destruct s1 as [|b s2]; [done|]. simpl in Hn.
  destruct (Py.is_space2 a b) eqn:E2.
  { apply is_space2_not_dot in E2 as [? ?]. rewrite IH by lia.
    by rewrite !count_dot_cons by done. }
  destruct s2 as [|c s3]; [done|]. simpl in Hn.
  destruct (Py.is_space3 a b c) eqn:E3; [|done].
  apply is_space3_not_dot in E3 as (? & ? & ?). rewrite IH by lia.
  by rewrite !count_dot_cons by done.
Qed.

Lemma count_dot_rstrip (s : string) :
  count_char "." s ≠ 0%nat → count_char "." (Py.rstrip s) ≠ 0%nat.
Proof.
  induction s as [|a s IH]; [done|]. intros Hs.
  change (Py.rstrip (String a s))
    with (match Py.lstrip (String a s) with
          | EmptyString => EmptyString
          | _ => String a (Py.rstrip s)
          end).
  pose proof (count_dot_lstrip (String a s)) as Hl.
  destruct (Py.lstrip (String a s)) as [|x l]; [rewrite <- Hl in Hs; by destruct Hs|].
  simpl in Hs |- *. destruct (decide (a = "."%char)); [done|]. by apply IH.
Qed.

Lemma all_digits_no_dot (s : string) : Py.all_digits s → count_char "." s = 0%nat.
Proof.
  induction s as [|a s IH]; [done|]. simpl. intros [Ha Hs]%andb_prop_elim.
  apply Is_true_eq_true, is_digit_facts in Ha as (_ & _ & Ha).
  rewrite decide_False by done. by apply IH.
Qed.

Lemma isdigit_dot (s : string) : count_char "." s ≠ 0%nat → Py.isdigit s = false.
Proof.
  intros H. destruct s as [|a s]; [done|]. unfold Py.isdigit.
  destruct (Py.all_digits (String a s)) eqn:E; [|done].
  destruct H. apply all_digits_no_dot. by rewrite E.
Qed.

(** [int] of a string with a decimal point. *)
Lemma int_dot (s : string) : count_char "." s ≠ 0%nat → Py.int s = Raise ValueError.
Proof.
  intros H. unfold Py.int, Py.strip.
  assert (count_char "." (Py.rstrip (Py.lstrip s)) ≠ 0%nat) as Hs.
  { apply count_dot_rstrip. by rewrite count_dot_lstrip. }
  destruct (Py.rstrip (Py.lstrip s)) as [|a t]; [done|].
  destruct (decide (a = "-"%char)) as [->|Hm].
  { rewrite isdigit_dot; [done|]. by rewrite count_dot_cons in Hs. }
  destruct (decide (a = "+"%char)) as [->|Hp].
  { rewrite isdigit_dot; [done|]. by rewrite count_dot_cons in Hs. }
  assert (Py.isdigit (String a t) = false) as Hd by by apply isdigit_dot.
  destruct a as [[] [] [] [] [] [] [] []]; try (by rewrite Hd); done.
Qed.

Lemma int_raises_ValueError (s : string) (e : exn) : Py.int s = Raise e → e = ValueError.
Proof.
  unfold Py.int. destruct (Py.strip s) as [|a t]; [by intros [= <-]|].
  destruct a as [[] [] [] [] [] [] [] []];
    repeat match goal with |- context [if ?b then _ else _] => destruct b end;
    by intros [= <-].
Qed.

Lemma bind_Raise {A B} (m : result A) (f : A → result B) (e : exn) :
  m ≫= f = Raise e → m = Raise e ∨ ∃ a, m = Ok a ∧ f a = Raise e.
Proof. destruct m as [a|e']; intros H; [right; by exists a|left; by injection H as ->]. Qed.

Lemma new_order_raises lang (existing : gmap value nat) (o : order) :
  existing !! VInt (order_id o) = None →
  raises (create_order_row lang o) →
  ∀ st, raises (process_order lang existing st o).
Proof.
  intros Hnew Hrow st. unfold process_order.
  destruct (convert_to_jalali (date_paid o)) as [[j t]|e]; simpl; [|by eexists].
  rewrite Hnew. unfold insert_new_order.
  destruct (decide _) as [?|?]; simpl.
  - destruct (add_sum_row _ _ _ _ _) as [[s i]|e]; simpl; [|by eexists].
    by apply bind_raises.
  - by apply bind_raises.
Qed.

(** X16: an order whose total, or whose discount total, is written with a
    decimal point makes [create_order_row] raise: [int] refuses the
    string.  The exception is a [ValueError] once the paid date converts
    and the birthday is there, and a batch that holds such an order, not
    yet in the ledger, ends in an exception. *)
Theorem decimal_total_raises lang (o : order) :
  count_char "." (order_total o) ≠ 0%nat ∨ count_char "." (discount_total o) ≠ 0%nat →
  raises (create_order_row lang o)
  ∧ (is_Ok (convert_to_jalali (date_paid o)) →
     (∃ birthday, find_meta_value o "_billing_field_529" = VStr birthday) →
     create_order_row lang o = Raise ValueError)
  ∧ ∀ file orders,
      o ∈ orders →
      existing_order_ids lang (open_ledger lang file) !! VInt (order_id o) = None →
      raises (write_to_excel lang file orders).
Proof.
  intros Hdot.
  assert (∀ order_row, create_order_row lang o ≠ Ok order_row) as Hno.
  { intros order_row H. unfold create_order_row in H.
    apply bind_Ok in H as (date_part & _ & H).
    apply bind_Ok in H as (birthday & _ & H).
    apply bind_Ok in H as (total & Htotal & H).
    apply bind_Ok in H as (discount & Hdiscount & _).
    destruct Hdot as [Hd|Hd]; apply int_dot in Hd; congruence. }
  assert (raises (create_order_row lang o)) as Hr.
  { destruct (create_order_row lang o) as [order_row|e] eqn:E; [by destruct (Hno order_row)|].
    by exists e. }
  split; [done|]. split.
  - intros [[j t] Hj] [b Hb]. destruct Hr as [e He]. rewrite He. f_equal.
    unfold create_order_row in He.
    apply bind_Raise in He as [H1|(date_part & _ & He)].
    { destruct (date_paid o) as [[|a s]|]; [done| |done].
      rewrite Hj in H1. done. }
    apply bind_Raise in He as [H2|(birthday & _ & He)].
    { rewrite Hb in H2. done. }
    apply bind_Raise in He as [H3|(total & _ & He)].
    { by apply int_raises_ValueError in H3. }
    apply bind_Raise in He as [H4|(discount & _ & He)]; [|done].
    by apply int_raises_ValueError in H4.
  - intros file orders Hin Hnew. eapply write_to_excel_raises; [|done].
    by apply new_order_raises.
Qed.

Lemma decimal_total_raises_witness :
  create_order_row En order_decimal_total = Raise ValueError
  ∧ raises (write_to_excel En (Some ledger_two_months) [order_101; order_decimal_total]).
Proof.
  assert (count_char "." (order_total order_decimal_total) ≠ 0%nat
          ∨ count_char "." (discount_total order_decimal_total) ≠ 0%nat) as H.
  { left. vm_compute. lia. }
  destruct (decimal_total_raises En order_decimal_total H) as (_ & H2 & H3).
  split.
  - apply H2.
    + unfold is_Ok. eexists. vm_compute. reflexivity.
    + eexists. vm_compute. reflexivity.
  - apply H3.
    + rewrite !elem_of_cons. right. by left.
    + vm_compute. reflexivity.
Defined.

(** * Totals, counts and product rows *)

(** X17: the row of totals that [append_totals] writes below the sheet holds
    the label of all sums under the address header, and under the postcode
    header and each of the seven amount headers the formula that adds the
    cells of that same column in the sum rows, as [calculate_totals] builds
    it; with no sum row the formula is the bare "=". *)
Theorem totals_row_formulas lang (s : list (list value)) (sum_rows : list nat) :
  let s' := append_totals lang s (calculate_totals lang sum_rows col_list) in
  length s' = S (length s)
  ∧ Sheet.cell_value s' (S (length s)) (column lang "address")
    = VStr (text lang "sum_all_orders_row_text")
  ∧ Forall (λ key,
              Sheet.cell_value s' (S (length s)) (column lang key)
              = VStr ("=" +:+ String.concat " + "
                              ((λ i, Sheet.get_column_letter (column lang key)
                                     +:+ Py.str (Z.of_nat i)) <$> sum_rows)))
      ["postcode"; "total"; "shipping"; "discount"; "sepidar_discount"; "item_total";
       "com_postal_payment"; "com_postage"]
  ∧ (∀ r c, (r ≤ length s)%nat → Sheet.cell_value s' r c = Sheet.cell_value s r c).
Proof.
  cbv zeta. unfold append_totals, Sheet.append. split; [|split; [|split]].
  - rewrite length_app. simpl. lia.
  - rewrite (cell_value_lookup _ (length s) _ _ (list_lookup_middle _ _ _ _ eq_refl)).
    rewrite SheetFacts.cell_of_row_normal_form. by destruct lang.
  - repeat (apply Forall_cons; split;
            [rewrite (cell_value_lookup _ (length s) _ _ (list_lookup_middle _ _ _ _ eq_refl));
             rewrite SheetFacts.cell_of_row_normal_form; by destruct lang|]).
    apply Forall_nil. done.
  - intros r c Hr. by apply cell_value_app_l.
Qed.

(** ** count_integer_rows *)



(** ** write_products *)

Lemma product_row_cells lang (item : line_item) (rw : list value) :
  product_row item = Ok rw →
  ∃ total,
    Py.int (item_total item) = Ok total
    ∧ Sheet.cell_of_row (Sheet.normal_form rw) (column lang "order_id") = VStr ""
    ∧ Sheet.cell_of_row (Sheet.normal_form rw) (column lang "product_sku") = VStr (item_sku item)
    ∧ Sheet.cell_of_row (Sheet.normal_form rw) (column lang "item_name") = VStr (item_name item)
    ∧ Sheet.cell_of_row (Sheet.normal_form rw) (column lang "quantity")
      = VInt (item_quantity item)
    ∧ Sheet.cell_of_row (Sheet.normal_form rw) (column lang "item_total") = VInt (total * 10).
Proof.
  unfold product_row. intros (total & Ht & [= <-])%bind_Ok. exists total.
  split; [done|]. rewrite !SheetFacts.cell_of_row_normal_form. by destruct lang.
Qed.

(** X19: [write_products] adds one row for each line item below the rows of
    the sheet, in the order of the items, and leaves the rows above as they
    are; the row of an item holds the SKU, the name, the quantity and ten
    times the integer total under their headers, and an empty string, not
    an identifier, in the identifier column. *)
Theorem write_products_rows lang (s : list (list value)) (items : list line_item)
    (s' : list (list value)) :
  write_products s items = Ok s' →
  ∃ rows,
    s' = s ++ rows
    ∧ Forall2 (λ item rw,
                 ∃ total,
                   Py.int (item_total item) = Ok total
                   ∧ Sheet.cell_of_row rw (column lang "order_id") = VStr ""
                   ∧ Sheet.cell_of_row rw (column lang "product_sku") = VStr (item_sku item)
                   ∧ Sheet.cell_of_row rw (column lang "item_name") = VStr (item_name item)
                   ∧ Sheet.cell_of_row rw (column lang "quantity") = VInt (item_quantity item)
                   ∧ Sheet.cell_of_row rw (column lang "item_total") = VInt (total * 10))
        items rows.
Proof.
  revert s. induction items as [|item items IH]; intros s; simpl.
  - intros [= <-]. exists []. split; [by rewrite app_nil_r|constructor].
  - intros (rw & Hrw & Hrest)%bind_Ok.
    apply IH in Hrest as (rows & -> & Hrows).
    exists (Sheet.normal_form rw :: rows). split.
    + unfold Sheet.append. by rewrite <- app_assoc.
    + constructor; [|done]. by apply product_row_cells.
Qed.

Lemma write_products_rows_witness :
  ∃ s',
    write_products ledger_header_only
      [ {| item_sku := "SKU-1"; item_name := "Tea"; item_quantity := 2; item_total := "300" |} ]
    = Ok s'
    ∧ length s' = 2%nat
    ∧ Sheet.cell_value s' 2 (column En "item_total") = VInt 3000.
Proof.
  destruct (write_products ledger_header_only
              [ {| item_sku := "SKU-1"; item_name := "Tea"; item_quantity := 2;
                   item_total := "300" |} ]) as [s'|e] eqn:E;
    [|vm_compute in E; discriminate].
  exists s'. split; [reflexivity|].
  destruct (write_products_rows En _ _ s' E) as (rows & -> & Hrows).
  apply Forall2_cons_inv_l in Hrows as (rw & rows' & (total & Ht & _ & _ & _ & _ & Hcell) & Hnil & ->).
  apply Forall2_nil_inv_l in Hnil as ->.
  split; [reflexivity|].
  rewrite (cell_value_lookup _ 1 rw) by reflexivity. rewrite Hcell.
  vm_compute in Ht. by injection Ht as <-.
Defined.

(** * addresses.py *)

Lemma ascii_lower_no_P (s : string) : count_char "P" (ascii_lower s) = 0%nat.
Proof.
  induction s as [|a s IH]; [done|]. simpl.
  rewrite decide_False; [done|].
  destruct a as [[] [] [] [] [] [] [] []]; by vm_compute.
Qed.

(** X20: with the English tables the filter of the mail merge selects no
    row, whatever the ledger holds: the status cell is lowered before it is
    compared with [ENGLISH_STATUS['processing']], which is "Processing"
    with a capital letter, and a lowered string holds no capital "P". *)
Theorem english_mail_merge_selects_nothing (lower : string → string) (df df' : DataFrame) :
  (∀ s, count_char "P" (lower s) = 0%nat) →
  filter_processing_orders En lower df = Ok df' →
  df_rows df' = [].
Proof.
  intros Hlower. unfold filter_processing_orders.
  destruct (decide _) as [?|?]; [|by intros [= <-]].
  cbv zeta. destruct (_ && _); [done|]. intros [= <-]. cbn [df_rows].
  apply filter_none. apply Forall_forall. intros row _ Hrow.
  unfold is_processing in Hrow.
  destruct (row !! Py.index (df_columns df) "status") as [[|z|s]|]; simpl in Hrow; try done.
  apply bool_decide_unpack in Hrow.
  pose proof (Hlower (Py.strip s)) as H0. rewrite Hrow in H0. done.
Qed.

Lemma english_mail_merge_selects_nothing_witness :
  ∃ df',
    [VInt 101; VStr "Processing"] `prefix_of` default [] (df_rows ledger_frame !! 0%nat)
    ∧ filter_processing_orders En ascii_lower ledger_frame = Ok df'
    ∧ df_rows df' = [].
Proof.
  destruct (filter_processing_orders En ascii_lower ledger_frame) as [df'|e] eqn:E;
    [|vm_compute in E; discriminate].
  exists df'. split; [|split; [reflexivity|]].
  - eexists. vm_compute. reflexivity.
  - exact (english_mail_merge_selects_nothing ascii_lower ledger_frame df' ascii_lower_no_P E).
Defined.

(** * Orders the index does not hold *)

Lemma insert_new_order_count lang (st : loop_state) (o : order) (month : string)
    (st' : loop_state) :
  insert_new_order lang st o month = Ok st' →
  new_orders_count st' = S (new_orders_count st).
Proof.
  unfold insert_new_order. intros (st1 & Hst1 & H)%bind_Ok.
  assert (new_orders_count st1 = S (new_orders_count st)) as <-.
  { destruct (decide _) as [?|?].
    - by apply bind_Ok in Hst1 as ([s i] & _ & [= <-]).
    - by injection Hst1 as <-. }
  apply bind_Ok in H as (order_row & _ & H).
  by apply bind_Ok in H as (s3 & _ & [= <-]).
Qed.

Lemma process_order_count lang (existing : gmap value nat) (st : loop_state) (o : order)
    (st' : loop_state) :
  process_order lang existing st o = Ok st' →
  new_orders_count st'
  = (new_orders_count st + length (filter (λ o, existing !! VInt (order_id o) = None) [o]))%nat
  ∧ (length (sheet st) + length (filter (λ o, existing !! VInt (order_id o) = None) [o])
     ≤ length (sheet st'))%nat.
Proof.
  intros Hst. rewrite filter_cons, filter_nil.
  destruct (existing !! VInt (order_id o)) as [row_index|] eqn:Hidx.
  - rewrite decide_False by done. simpl.
    pose proof (process_order_keeps _ _ _ _ _ Hst) as [Hlen _].
    unfold process_order in Hst. apply bind_Ok in Hst as ([j t] & _ & Hst).
    rewrite Hidx in Hst. injection Hst as <-. simpl in *. split; lia.
  - rewrite decide_True by done. simpl.
    destruct (insert_row_holds_id _ _ _ _ _ Hidx Hst) as (row_index & Hr & _).
    unfold process_order in Hst. apply bind_Ok in Hst as ([j t] & _ & Hst).
    rewrite Hidx in Hst. apply insert_new_order_count in Hst. simpl in *. split; lia.
Qed.

(** X21: the index is built once, before the loop: every order of the batch
    whose identifier it does not hold is counted as new and written in a
    row of its own, an order that stands twice in the batch as well;
    [new_orders_count] is the number of these orders, and the sheet grows
    by a row at least for each of them. *)
Theorem new_orders_are_counted lang (existing : gmap value nat) (st : loop_state)
    (orders : list order) (st' : loop_state) :
  process_orders lang existing st orders = Ok st' →
  new_orders_count st'
  = (new_orders_count st
     + length (filter (λ o, existing !! VInt (order_id o) = None) orders))%nat
  ∧ (length (sheet st) + length (filter (λ o, existing !! VInt (order_id o) = None) orders)
     ≤ length (sheet st'))%nat.
Proof.
  revert st. induction orders as [|o orders IH]; intros st Hloop; simpl in Hloop.
  - injection Hloop as <-. rewrite filter_nil. simpl. split; lia.
  - apply bind_Ok in Hloop as (st1 & H1 & Hrest).
    apply process_order_count in H1 as [Hc1 Hl1]. apply IH in Hrest as [Hc2 Hl2].
    change (o :: orders) with ([o] ++ orders). rewrite filter_app, length_app. split; lia.
Qed.

Lemma new_orders_are_counted_witness :
  ∃ st',
    process_orders En (existing_order_ids En (sheet first_turn_on_two_months))
      first_turn_on_two_months [order_103; order_101; order_103] = Ok st'
    ∧ new_orders_count st' = 2%nat
    ∧ Sheet.cell_value (sheet st') 5 (column En "order_id") = VInt 103
    ∧ Sheet.cell_value (sheet st') 7 (column En "order_id") = VInt 103.
Proof.
  destruct (process_orders En (existing_order_ids En (sheet first_turn_on_two_months))
              first_turn_on_two_months [order_103; order_101; order_103]) as [st'|e] eqn:E;
    [|vm_compute in E; discriminate].
  exists st'. split; [reflexivity|]. split.
  - rewrite (proj1 (new_orders_are_counted En _ _ _ st' E)). vm_compute. reflexivity.
  - vm_compute in E. injection E as <-. split; reflexivity.
Defined.
